(** * Linux route descriptor and VPP punt-to-host descriptor

    A shallow embedding of the two KVScheduler descriptors of the agent
    (the Linux static-route descriptor of [linuxv2/l3plugin/descriptor] and
    the punt-to-host descriptor of [vppv2/puntplugin/descriptor]) together
    with the properties of their validation, error classification, value
    comparison and dump code.

    Layout: the Go library types the descriptors compute with ([net]), the
    data model, the interfaces of the collaborators, the descriptors
    themselves, a reference instance of the library interface, and then the
    lemmas and theorems. *)

From Stdlib Require Import String Ascii ZArith List Bool Lia Arith Permutation.
Import ListNotations.
Local Open Scope string_scope.
Local Open Scope list_scope.

(* ===================================================================== *)
(** ** Go library types: [net.IP] and friends                             *)
(* ===================================================================== *)

(** [net.IP], [net.IPMask] are byte slices and [net.IPNet] a pair of them.
    The methods below are the ones the descriptors call on such values;
    they work on the bytes only.  Parsing and printing of addresses are part
    of the library interface [GoLib] further down. *)
Module net.

Definition IP := list Z.
Definition IPMask := list Z.

(** [IP_] is the field [IP]. *)
Record IPNet : Type := { IP_ : IP; Mask : IPMask }.

Definition IPv4len : nat := 4.
Definition IPv6len : nat := 16.

Definition v4InV6Prefix : list Z := [0; 0; 0; 0; 0; 0; 0; 0; 0; 0; 255; 255]%Z.

(** [IPv4(a, b, c, d)]: the 16-byte form of an IPv4 address. *)
Definition IPv4 (a b c d : Z) : IP := v4InV6Prefix ++ [a; b; c; d].

Definition IPv4zero : IP := IPv4 0 0 0 0.
Definition IPv6unspecified : IP := repeat 0%Z 16.

(** [bytes.Equal]. *)
Fixpoint bytesEqual (a b : list Z) : bool :=
  match a, b with
  | [], [] => true
  | x :: a', y :: b' => (x =? y)%Z && bytesEqual a' b'
  | _, _ => false
  end.

Definition isZeros (p : list Z) : bool := forallb (fun b => (b =? 0)%Z) p.

(** [ip.To4()]; [None] is the nil slice. *)
Definition To4 (ip : IP) : option IP :=
  if (length ip =? IPv4len)%nat then Some ip
  else if (length ip =? IPv6len)%nat
          && isZeros (firstn 10 ip)
          && (nth 10 ip 0 =? 255)%Z && (nth 11 ip 0 =? 255)%Z
       then Some (firstn 4 (skipn 12 ip))
       else None.

(** [ip.Equal(x)]: an IPv4 address and its IPv6 form are equal. *)
Definition Equal (ip x : IP) : bool :=
  if (length ip =? length x)%nat then bytesEqual ip x
  else if (length ip =? IPv4len)%nat && (length x =? IPv6len)%nat then
    bytesEqual (firstn 12 x) v4InV6Prefix && bytesEqual ip (skipn 12 x)
  else if (length ip =? IPv6len)%nat && (length x =? IPv4len)%nat then
    bytesEqual (firstn 12 ip) v4InV6Prefix && bytesEqual (skipn 12 ip) x
  else false.

(** [ip.IsUnspecified()]. *)
Definition IsUnspecified (ip : IP) : bool :=
  Equal ip IPv4zero || Equal ip IPv6unspecified.

(** [ip.IsLinkLocalUnicast()]. *)
Definition IsLinkLocalUnicast (ip : IP) : bool :=
  match To4 ip with
  | Some ip4 => (nth 0 ip4 0 =? 169)%Z && (nth 1 ip4 0 =? 254)%Z
  | None =>
      (length ip =? IPv6len)%nat
      && (nth 0 ip 0 =? 254)%Z
      && (Z.land (nth 1 ip 0) 192 =? 128)%Z
  end.

End net.

(* ===================================================================== *)
(** ** Data model                                                         *)
(* ===================================================================== *)

(** [linux.namespace.NetNamespace] (the proto message). *)
Module namespace.

Inductive ReferenceType : Type :=
| NETNS_REF_UNDEFINED
| NETNS_REF_NSID
| NETNS_REF_PID
| NETNS_REF_FD
| NETNS_REF_MICROSERVICE.

Record NetNamespace : Type := { type : ReferenceType; reference : string }.

End namespace.

(** The northbound model of a Linux route, [l3.StaticRoute]. *)
Module l3.

(** The scope enumeration.  The descriptor names four of its values;
    [StaticRoute_UNDEFINED] stands for every other value of the enum. *)
Inductive StaticRoute_Scope : Type :=
| StaticRoute_UNDEFINED
| StaticRoute_GLOBAL
| StaticRoute_SITE
| StaticRoute_LINK
| StaticRoute_HOST.

Definition StaticRoute_Scope_eqb (a b : StaticRoute_Scope) : bool :=
  match a, b with
  | StaticRoute_UNDEFINED, StaticRoute_UNDEFINED
  | StaticRoute_GLOBAL, StaticRoute_GLOBAL
  | StaticRoute_SITE, StaticRoute_SITE
  | StaticRoute_LINK, StaticRoute_LINK
  | StaticRoute_HOST, StaticRoute_HOST => true
  | _, _ => false
  end.

Record StaticRoute : Type := {
  OutgoingInterface : string;
  Scope : StaticRoute_Scope;
  DstNetwork : string;
  GwAddr : string;
  Metric : Z                      (* uint32 *)
}.

End l3.

(** The Netlink representation of a route, [netlink.Route]. *)
Module netlink.

(** [netlink.Scope]; [SCOPE_NOWHERE] stands for every value that has no
    northbound counterpart. *)
Inductive Scope : Type :=
| SCOPE_UNIVERSE
| SCOPE_SITE
| SCOPE_LINK
| SCOPE_HOST
| SCOPE_NOWHERE.

Record Route : Type := {
  LinkIndex : Z;
  Dst : option net.IPNet;         (* *net.IPNet, nil when there is none *)
  Gw : net.IP;
  RouteScope : Scope;             (* the field Scope *)
  Priority : Z
}.

End netlink.

(** The northbound model of a punt, [punt.ToHost]. *)
Module punt.

Inductive L3Protocol : Type :=
| L3Protocol_UNDEFINED | L3Protocol_IPv4 | L3Protocol_IPv6 | L3Protocol_ALL.

Inductive L4Protocol : Type :=
| L4Protocol_UNDEFINED | L4Protocol_TCP | L4Protocol_UDP.

Record ToHost : Type := {
  L3Protocol_ : L3Protocol;
  L4Protocol_ : L4Protocol;
  Port : Z;                       (* uint32 *)
  SocketPath : string
}.

End punt.

(** *** Errors

    A Go [error] is compared by identity.  The package-level error
    variables of the two descriptors are one constructor each; [Errorf] is
    an error value allocated at run time (by [errors.Errorf] in the
    descriptor, or by a collaborator), which is never identical to one of
    the package-level variables, whatever its message.  The nil error is
    [None] of [option error]. *)
Inductive error : Type :=
| ErrRouteWithoutInterface
| ErrRouteWithoutDestination
| ErrRouteWithUndefinedScope
| ErrRouteWithInvalidDst
| ErrRouteWithInvalidGw
| ErrRouteLinkWithGw
| ErrPuntWithoutL3Protocol
| ErrPuntWithoutL4Protocol
| ErrPuntWithoutPort
| Errorf (msg : string).

(** [err.Error()]. *)
Definition Error (e : error) : string :=
  match e with
  | ErrRouteWithoutInterface => "Linux Route defined without outgoing interface reference"
  | ErrRouteWithoutDestination => "Linux Route defined without destination network"
  | ErrRouteWithUndefinedScope => "Linux Route defined without scope"
  | ErrRouteWithInvalidDst => "Linux Route defined with invalid destination network"
  | ErrRouteWithInvalidGw => "Linux Route defined with invalid GW address"
  | ErrRouteLinkWithGw => "Link-local Linux Route was defined with non-empty GW address"
  | ErrPuntWithoutL3Protocol => "VPP punt defined without L3 protocol"
  | ErrPuntWithoutL4Protocol => "VPP punt defined without L4 protocol"
  | ErrPuntWithoutPort => "VPP punt defined without port"
  | Errorf msg => msg
  end.

(** [err == sentinel], for a package-level error variable [sentinel]. *)
Definition is_error (err : option error) (sentinel : error) : bool :=
  match err, sentinel with
  | Some ErrRouteWithoutInterface, ErrRouteWithoutInterface
  | Some ErrRouteWithoutDestination, ErrRouteWithoutDestination
  | Some ErrRouteWithUndefinedScope, ErrRouteWithUndefinedScope
  | Some ErrRouteWithInvalidDst, ErrRouteWithInvalidDst
  | Some ErrRouteWithInvalidGw, ErrRouteWithInvalidGw
  | Some ErrRouteLinkWithGw, ErrRouteLinkWithGw
  | Some ErrPuntWithoutL3Protocol, ErrPuntWithoutL3Protocol
  | Some ErrPuntWithoutL4Protocol, ErrPuntWithoutL4Protocol
  | Some ErrPuntWithoutPort, ErrPuntWithoutPort => true
  | _, _ => false
  end.


(* ===================================================================== *)
(** ** Library interface                                                  *)
(* ===================================================================== *)

(** The functions of other packages that the descriptors call and whose
    code is not part of the two descriptor files: Go's [net] and [strings],
    cn-infra's [addrs], and the key builders of the model packages.  The
    descriptors are written against this interface; [RefLib] below is one
    instance of it. *)
Class GoLib : Type := {
  (** [net.ParseIP]; [None] is the nil result. *)
  net_ParseIP : string -> option net.IP;
  (** [net.ParseCIDR]; [None] is a non-nil error. *)
  net_ParseCIDR : string -> option (net.IP * net.IPNet);
  (** [ip.String()] and [n.String()]. *)
  net_IP_String : net.IP -> string;
  net_IPNet_String : net.IPNet -> string;
  (** [n.Contains(ip)] on a [*net.IPNet]. *)
  net_IPNet_Contains : option net.IPNet -> net.IP -> bool;
  (** [strings.ToLower]. *)
  strings_ToLower : string -> string;
  (** [addrs.IsIPv6]: (is IPv6, error). *)
  addrs_IsIPv6 : string -> bool * option error;
  (** [l3.StaticRouteKey], [l3.ParseStaticLinkLocalRouteKey]. *)
  l3_StaticRouteKey : string -> string -> string;
  l3_ParseStaticLinkLocalRouteKey : string -> option net.IPNet * string * bool;
  (** [ifmodel.InterfaceStateKey], [ifmodel.ParseInterfaceAddressKey]. *)
  ifmodel_InterfaceStateKey : string -> bool -> string;
  ifmodel_ParseInterfaceAddressKey : string -> string * option net.IPNet * bool;
  (** The package constant [minWorkForGoRoutine]. *)
  minWorkForGoRoutine : Z
}.

(** Two more key builders of the model packages, used by [DerivedValues]
    and by the mock of the resync DSL: [l3.StaticLinkLocalRouteKey] and
    [punt.ToHostKey]. *)
Class ModelKeys : Type := {
  l3_StaticLinkLocalRouteKey : string -> string -> string;
  punt_ToHostKey : punt.L3Protocol -> punt.L4Protocol -> Z -> string
}.

(** The [proto.Message] values that occur: the empty message, a Linux
    route and a punt to the host. *)
Inductive Message : Type :=
| Msg_Empty
| Msg_LinuxRoute (val : l3.StaticRoute)
| Msg_PuntToHost (val : punt.ToHost).

(** [scheduler.KeyValuePair]. *)
Record KeyValuePair : Type := {
  KVPKey : string;
  KVPValue : Message
}.

(* ===================================================================== *)
(** ** Collaborators and effects                                          *)
(* ===================================================================== *)

(** Metadata is an [interface{}]: nil or an opaque value. *)
Definition Metadata : Type := option Z.

(** [ifaceidx.LinuxIfMetadata]. *)
Record LinuxIfMetadata : Type := {
  LinuxIfIndex : Z;
  Namespace : option namespace.NetNamespace
}.

(** The interface index behind [ifPlugin.GetInterfaceIndex()]: what a
    lookup answers ([ifMeta], [found]) and the names it lists. *)
Record IfPluginAPI : Type := {
  LookupByName : string -> option LinuxIfMetadata * bool;
  ListAllInterfaces : list string
}.

(** [nsPlugin]: the error of a switch to the given namespace, if any. *)
Record NsPluginAPI : Type := {
  SwitchToNamespace : option namespace.NetNamespace -> option error
}.

(** [l3linuxcalls.NetlinkAPI].  A call is answered in the network
    namespace the caller is in at that time, the first argument. *)
Record NetlinkAPI : Type := {
  AddStaticRoute : option namespace.NetNamespace -> netlink.Route -> option error;
  DelStaticRoute : option namespace.NetNamespace -> netlink.Route -> option error;
  ReplaceStaticRoute : option namespace.NetNamespace -> netlink.Route -> option error;
  GetStaticRoutes : option namespace.NetNamespace -> Z ->
                    list netlink.Route * list netlink.Route * option error
}.

(** [vppcalls.PuntVppAPI]. *)
Record PuntVppAPI : Type := {
  AddPunt : punt.ToHost -> option error;
  RegisterPuntSocket : punt.ToHost -> option error;
  DeregisterPuntSocket : punt.ToHost -> option error
}.

(** A call to a collaborator (a resource call). *)
Inductive Call : Type :=
| Call_LookupByName (name : string)
| Call_SwitchToNamespace (ns : option namespace.NetNamespace)
| Call_revertNs
| Call_AddStaticRoute (r : netlink.Route)
| Call_DelStaticRoute (r : netlink.Route)
| Call_ReplaceStaticRoute (r : netlink.Route)
| Call_AddPunt (p : punt.ToHost)
| Call_RegisterPuntSocket (p : punt.ToHost)
| Call_DeregisterPuntSocket (p : punt.ToHost).

Inductive LogLevel : Type := ErrorLevel | WarnLevel.

(** What a descriptor operation can change: the network namespace the
    calling thread is in, the resource calls made so far (oldest first) and
    the log. *)
Record World : Type := {
  netns : option namespace.NetNamespace;
  calls : list Call;
  logs : list (LogLevel * string)
}.

(** The state monad over [World]. *)
Definition M (A : Type) : Type := World -> A * World.

Definition ret {A : Type} (a : A) : M A := fun w => (a, w).

Definition bind {A B : Type} (m : M A) (f : A -> M B) : M B :=
  fun w => let (a, w') := m w in f a w'.

Declare Scope go_scope.
Delimit Scope go_scope with go.
Notation "x <- m ;; k" := (bind m (fun x => k))
  (at level 100, m at next level, right associativity) : go_scope.
Notation "m ;;; k" := (bind m (fun _ => k))
  (at level 100, right associativity) : go_scope.

Definition record_call (c : Call) : M unit :=
  fun w => (tt, {| netns := netns w; calls := calls w ++ [c]; logs := logs w |}).

Definition set_netns (ns : option namespace.NetNamespace) : M unit :=
  fun w => (tt, {| netns := ns; calls := calls w; logs := logs w |}).

Definition get_netns : M (option namespace.NetNamespace) :=
  fun w => (netns w, w).

(** [d.log.Error(err)] and [d.log.Warn(msg)]. *)
Definition log_Error (err : error) : M unit :=
  fun w => (tt, {| netns := netns w; calls := calls w;
                   logs := logs w ++ [(ErrorLevel, Error err)] |}).

Definition log_Warn (msg : string) : M unit :=
  fun w => (tt, {| netns := netns w; calls := calls w;
                   logs := logs w ++ [(WarnLevel, msg)] |}).

(** [idx.LookupByName(name)]. *)
Definition call_LookupByName (ifPlugin : IfPluginAPI) (name : string)
  : M (option LinuxIfMetadata * bool) :=
  (record_call (Call_LookupByName name) ;;;
   ret (LookupByName ifPlugin name))%go.

(** [nsPlugin.SwitchToNamespace(ctx, ns)]: the revert function and the
    error.  A successful switch moves the thread into [ns]; the revert
    function moves it back to where it was. *)
Definition call_SwitchToNamespace (nsPlugin : NsPluginAPI)
    (ns : option namespace.NetNamespace) : M (M unit * option error) :=
  (prev <- get_netns ;;
   record_call (Call_SwitchToNamespace ns) ;;;
   match SwitchToNamespace nsPlugin ns with
   | Some err => ret (ret tt, Some err)
   | None =>
       set_netns ns ;;;
       ret ((record_call Call_revertNs ;;; set_netns prev), None)
   end)%go.

(** The three Netlink operations an update can end in, as the callbacks
    [d.l3Handler.AddStaticRoute] and so on. *)
Definition call_AddStaticRoute (h : NetlinkAPI) (r : netlink.Route) : M (option error) :=
  (record_call (Call_AddStaticRoute r) ;;;
   ns <- get_netns ;; ret (AddStaticRoute h ns r))%go.

Definition call_DelStaticRoute (h : NetlinkAPI) (r : netlink.Route) : M (option error) :=
  (record_call (Call_DelStaticRoute r) ;;;
   ns <- get_netns ;; ret (DelStaticRoute h ns r))%go.

Definition call_ReplaceStaticRoute (h : NetlinkAPI) (r : netlink.Route) : M (option error) :=
  (record_call (Call_ReplaceStaticRoute r) ;;;
   ns <- get_netns ;; ret (ReplaceStaticRoute h ns r))%go.

Definition call_DeregisterPuntSocket (h : PuntVppAPI) (p : punt.ToHost) : M (option error) :=
  (record_call (Call_DeregisterPuntSocket p) ;;;
   ret (DeregisterPuntSocket h p))%go.

Definition call_AddPunt (h : PuntVppAPI) (p : punt.ToHost) : M (option error) :=
  (record_call (Call_AddPunt p) ;;; ret (AddPunt h p))%go.

Definition call_RegisterPuntSocket (h : PuntVppAPI) (p : punt.ToHost) : M (option error) :=
  (record_call (Call_RegisterPuntSocket p) ;;; ret (RegisterPuntSocket h p))%go.

(** The scheduler's view of a value's origin. *)
Inductive ValueOrigin : Type := UnknownOrigin | FromNB | FromSB.

(** [scheduler.Dependency]. *)
Record Dependency : Type := {
  Label : string;
  Key : string;
  AnyOf : option (string -> bool)
}.

(* ===================================================================== *)
(** ** The Linux route descriptor                                         *)
(* ===================================================================== *)

Module route.
Section Descriptor.
Context {lib : GoLib}.

Definition RouteDescriptorName : string := "linux-route".

(** IP addresses matching any destination. *)
Definition ipv4AddrAny : string := "0.0.0.0".
Definition ipv6AddrAny : string := "::".

(** Dependency labels. *)
Definition routeOutInterfaceDep : string := "interface".
Definition routeGwReachabilityDep : string := "gw-reachability".

(** [RouteDescriptor]: its collaborators and the bound on the number of
    dump workers (the logger is the [logs] of the [World]). *)
Record RouteDescriptor : Type := {
  l3Handler : NetlinkAPI;
  ifPlugin : IfPluginAPI;
  nsPlugin : NsPluginAPI;
  dumpGoRoutinesCnt : Z
}.

(** [adapter.RouteKVWithMetadata]. *)
Record RouteKVWithMetadata : Type := {
  KVKey : string;
  Value : l3.StaticRoute;
  KVMetadata : Metadata;
  Origin : ValueOrigin
}.

(** [equalAddrs] compares two IP addresses for equality. *)
Definition equalAddrs (addr1 addr2 : string) : bool :=
  match net_ParseIP addr1, net_ParseIP addr2 with
  | Some a1, Some a2 => net.Equal a1 a2
  | _, _ =>
      (* if parsing fails, compare as strings *)
      strings_ToLower addr1 =? strings_ToLower addr2
  end.

(** [equalNetworks] compares two IP networks for equality. *)
Definition equalNetworks (net1 net2 : string) : bool :=
  match net_ParseCIDR net1, net_ParseCIDR net2 with
  | Some (_, n1), Some (_, n2) =>
      net.Equal (net.IP_ n1) (net.IP_ n2) && net.bytesEqual (net.Mask n1) (net.Mask n2)
  | _, _ =>
      (* if parsing fails, compare as strings *)
      strings_ToLower net1 =? strings_ToLower net2
  end.

(** [getGwAddr] returns the GW address chosen in the given route, handling
    the cases when it is left undefined. *)
Definition getGwAddr (route : l3.StaticRoute) : string :=
  if l3.GwAddr route =? "" then
    if fst (addrs_IsIPv6 (l3.DstNetwork route)) then ipv6AddrAny else ipv4AddrAny
  else l3.GwAddr route.

(** [EquivalentRoutes]: the comparison function for [l3.StaticRoute]. *)
Definition EquivalentRoutes (d : RouteDescriptor) (key : string)
    (oldRoute newRoute : l3.StaticRoute) : bool :=
  if negb (l3.OutgoingInterface oldRoute =? l3.OutgoingInterface newRoute)
     || negb (l3.StaticRoute_Scope_eqb (l3.Scope oldRoute) (l3.Scope newRoute))
     || negb (l3.Metric oldRoute =? l3.Metric newRoute)%Z
  then false
  else if negb (equalNetworks (l3.DstNetwork oldRoute) (l3.DstNetwork newRoute))
  then false
  else equalAddrs (getGwAddr oldRoute) (getGwAddr newRoute).

Definition nonRetriableErrs : list error := [
  ErrRouteWithoutInterface;
  ErrRouteWithoutDestination;
  ErrRouteWithUndefinedScope;
  ErrRouteWithInvalidDst;
  ErrRouteWithInvalidGw;
  ErrRouteLinkWithGw
].

(** The loop of [IsRetriableFailure] over a list of errors. *)
Fixpoint rangeNonRetriable (err : option error) (errs : list error) : bool :=
  match errs with
  | [] => true
  | nonRetriableErr :: rest =>
      if is_error err nonRetriableErr then false else rangeNonRetriable err rest
  end.

(** [IsRetriableFailure] returns false for errors related to invalid
    configuration. *)
Definition IsRetriableFailure (d : RouteDescriptor) (err : option error) : bool :=
  rangeNonRetriable err nonRetriableErrs.

(** [rtScopeFromNBToNetlink]: the Netlink constant, or the error. *)
Definition rtScopeFromNBToNetlink (scope : l3.StaticRoute_Scope) : netlink.Scope + error :=
  match scope with
  | l3.StaticRoute_GLOBAL => inl netlink.SCOPE_UNIVERSE
  | l3.StaticRoute_HOST => inl netlink.SCOPE_HOST
  | l3.StaticRoute_LINK => inl netlink.SCOPE_LINK
  | l3.StaticRoute_SITE => inl netlink.SCOPE_SITE
  | l3.StaticRoute_UNDEFINED => inr ErrRouteWithUndefinedScope
  end.

(** [rtScopeFromNetlinkToNB]: the northbound constant, or the error. *)
Definition rtScopeFromNetlinkToNB (scope : netlink.Scope) : l3.StaticRoute_Scope + error :=
  match scope with
  | netlink.SCOPE_UNIVERSE => inl l3.StaticRoute_GLOBAL
  | netlink.SCOPE_HOST => inl l3.StaticRoute_HOST
  | netlink.SCOPE_LINK => inl l3.StaticRoute_LINK
  | netlink.SCOPE_SITE => inl l3.StaticRoute_SITE
  | netlink.SCOPE_NOWHERE => inr ErrRouteWithUndefinedScope
  end.

(** [updateRoute] adds, modifies or deletes a Linux route. *)
Definition updateRoute (d : RouteDescriptor) (route : l3.StaticRoute)
    (actionName : string) (actionClb : netlink.Route -> M (option error))
  : M (option error) :=
  (* validate the configuration first *)
  if l3.OutgoingInterface route =? "" then
    (log_Error ErrRouteWithoutInterface ;;; ret (Some ErrRouteWithoutInterface))%go
  else if l3.DstNetwork route =? "" then
    (log_Error ErrRouteWithoutDestination ;;; ret (Some ErrRouteWithoutDestination))%go
  else if l3.StaticRoute_Scope_eqb (l3.Scope route) l3.StaticRoute_LINK
          && negb (l3.GwAddr route =? "") then
    (log_Error ErrRouteLinkWithGw ;;; ret (Some ErrRouteLinkWithGw))%go
  else
    (* get interface metadata *)
    (lookup <- call_LookupByName (ifPlugin d) (l3.OutgoingInterface route) ;;
     match lookup with
     | (Some ifMeta, true) =>
         (* set destination network *)
         match net_ParseCIDR (l3.DstNetwork route) with
         | None =>
             log_Error ErrRouteWithInvalidDst ;;; ret (Some ErrRouteWithInvalidDst)
         | Some (_, dstNet) =>
             (* set gateway address *)
             match (if l3.GwAddr route =? "" then Some []
                    else net_ParseIP (l3.GwAddr route)) with
             | None =>
                 log_Error ErrRouteWithInvalidGw ;;; ret (Some ErrRouteWithInvalidGw)
             | Some gwAddr =>
                 (* set route scope *)
                 match rtScopeFromNBToNetlink (l3.Scope route) with
                 | inr err => log_Error err ;;; ret (Some err)
                 | inl scope =>
                     let netlinkRoute := {|
                       netlink.LinkIndex := LinuxIfIndex ifMeta;
                       netlink.Dst := Some dstNet;
                       netlink.Gw := gwAddr;
                       netlink.RouteScope := scope;
                       netlink.Priority := l3.Metric route |} in
                     (* move to the namespace of the associated interface *)
                     sw <- call_SwitchToNamespace (nsPlugin d) (Namespace ifMeta) ;;
                     let (revertNs, err) := sw in
                     match err with
                     | Some e =>
                         let err := Errorf ("failed to switch namespace: " ++ Error e) in
                         log_Error err ;;; ret (Some err)
                     | None =>
                         (* update route in the interface namespace;
                            revertNs is deferred to the return *)
                         err <- actionClb netlinkRoute ;;
                         match err with
                         | Some e =>
                             let err := Errorf ("failed to " ++ actionName
                                                ++ " linux route: " ++ Error e) in
                             log_Error err ;;; revertNs ;;; ret (Some err)
                         | None => revertNs ;;; ret None
                         end
                     end
                 end
             end
         end
     | _ =>
         let err := Errorf ("failed to obtain metadata for interface "
                            ++ l3.OutgoingInterface route) in
         log_Error err ;;; ret (Some err)
     end)%go.

(** [Add] adds Linux route. *)
Definition Add (d : RouteDescriptor) (key : string) (route : l3.StaticRoute)
  : M (Metadata * option error) :=
  (err <- updateRoute d route "add" (call_AddStaticRoute (l3Handler d)) ;;
   ret (None, err))%go.

(** [Delete] removes Linux route. *)
Definition Delete (d : RouteDescriptor) (key : string) (route : l3.StaticRoute)
    (metadata : Metadata) : M (option error) :=
  updateRoute d route "delete" (call_DelStaticRoute (l3Handler d)).

(** [Modify] is able to change route scope, metric and GW address. *)
Definition Modify (d : RouteDescriptor) (key : string)
    (oldRoute newRoute : l3.StaticRoute) (oldMetadata : Metadata)
  : M (Metadata * option error) :=
  (err <- updateRoute d newRoute "modify" (call_ReplaceStaticRoute (l3Handler d)) ;;
   ret (None, err))%go.

(** [Dependencies] lists dependencies for a Linux route. *)
Definition Dependencies (d : RouteDescriptor) (key : string) (route : l3.StaticRoute)
  : list Dependency :=
  let dependencies : list Dependency := [] in
  (* the outgoing interface must exist and be UP *)
  let dependencies :=
    if negb (l3.OutgoingInterface route =? "") then
      dependencies ++ [ {| Label := routeOutInterfaceDep;
                           Key := ifmodel_InterfaceStateKey (l3.OutgoingInterface route) true;
                           AnyOf := None |} ]
    else dependencies in
  (* GW must be routable *)
  match net_ParseIP (getGwAddr route) with
  | Some gwAddr =>
      if negb (net.IsUnspecified gwAddr) then
        dependencies ++ [ {|
          Label := routeGwReachabilityDep;
          Key := "";
          AnyOf := Some (fun key =>
            let '(dstAddr, ifName, isRouteKey) := l3_ParseStaticLinkLocalRouteKey key in
            if isRouteKey && (ifName =? l3.OutgoingInterface route)
               && net_IPNet_Contains dstAddr gwAddr
            then true
            else
              let '(ifName, addr, isAddrKey) := ifmodel_ParseInterfaceAddressKey key in
              if isAddrKey && (ifName =? l3.OutgoingInterface route)
                 && net_IPNet_Contains addr gwAddr
              then true
              else false) |} ]
      else dependencies
  | None => dependencies
  end.

(** [routeDump] is used as the return value sent via channel by
    [dumpRoutes]. *)
Record routeDump : Type := {
  routes : list RouteKVWithMetadata;
  err : option error
}.

(** The indices visited by the loop
    [for i := goRoutineIdx; i < len(interfaces); i += goRoutinesCnt]
    of [dumpRoutes], oldest first; [fuel] bounds the number of iterations. *)
Fixpoint dumpRoutes_indices_from (fuel i goRoutinesCnt len : nat) : list nat :=
  match fuel with
  | O => []
  | S fuel' =>
      if (i <? len)%nat
      then i :: dumpRoutes_indices_from fuel' (i + goRoutinesCnt) goRoutinesCnt len
      else []
  end.

(** With a positive stride the loop ends within [len] iterations. *)
Definition dumpRoutes_indices (goRoutineIdx goRoutinesCnt len : nat) : list nat :=
  dumpRoutes_indices_from len goRoutineIdx goRoutinesCnt len.

(** The body of the conversion loop of [dumpRoutes] for the route at
    position [idx] of [append(v4Routes, v6Routes...)]: the entry it appends,
    none when the route is skipped. *)
Definition convertRoute (ifName : string) (lenV4 idx : nat) (route : netlink.Route)
  : list RouteKVWithMetadata :=
  let skip :=
    match netlink.Dst route with
    | None => false
    | Some dst =>
        (* skip link-local IPv6 destinations *)
        match net.To4 (net.IP_ dst) with
        | None => net.IsLinkLocalUnicast (net.IP_ dst)
        | Some _ => false
        end
    end in
  if skip then []
  else
    let dstNet :=
      match netlink.Dst route with
      | None => if (idx <? lenV4)%nat then (ipv4AddrAny ++ "/0")%string
                else (ipv6AddrAny ++ "/0")%string
      | Some dst => net_IPNet_String dst
      end in
    let gwAddr :=
      if negb (length (netlink.Gw route) =? 0)%nat
      then net_IP_String (netlink.Gw route) else "" in
    match rtScopeFromNetlinkToNB (netlink.RouteScope route) with
    | inr _ => []                  (* route not configured by the agent *)
    | inl scope =>
        [ {| KVKey := l3_StaticRouteKey dstNet ifName;
             Value := {| l3.OutgoingInterface := ifName;
                         l3.Scope := scope;
                         l3.DstNetwork := dstNet;
                         l3.GwAddr := gwAddr;
                         l3.Metric := (netlink.Priority route mod 2 ^ 32)%Z |};
             KVMetadata := None;
             Origin := UnknownOrigin |} ]
    end.

(** The conversion loop over [append(v4Routes, v6Routes...)], from
    position [idx] on. *)
Fixpoint convertRoutes (ifName : string) (lenV4 idx : nat) (rs : list netlink.Route)
  : list RouteKVWithMetadata :=
  match rs with
  | [] => []
  | route :: rest =>
      convertRoute ifName lenV4 idx route ++ convertRoutes ifName lenV4 (S idx) rest
  end.

(** The loop of [dumpRoutes] over the indices [idxs] still to visit.  The
    worker only queries its collaborators; the namespace it switches to is
    the one its [GetStaticRoutes] call is answered in. *)
Fixpoint dumpRoutes_loop (d : RouteDescriptor) (interfaces : list string)
    (idxs : list nat) (dump : routeDump) : routeDump :=
  match idxs with
  | [] => dump
  | i :: rest =>
      let ifName := nth i interfaces "" in
      (* get interface metadata *)
      match LookupByName (ifPlugin d) ifName with
      | (Some ifMeta, true) =>
          (* switch to the namespace of the interface *)
          match SwitchToNamespace (nsPlugin d) (Namespace ifMeta) with
          | Some _ =>
              (* namespace and all the routes it had contained no longer exist *)
              dumpRoutes_loop d interfaces rest dump
          | None =>
              (* get routes assigned to this interface *)
              match GetStaticRoutes (l3Handler d) (Namespace ifMeta) (LinuxIfIndex ifMeta) with
              | (_, _, Some e) => {| routes := routes dump; err := Some e |}
              | (v4Routes, v6Routes, None) =>
                  dumpRoutes_loop d interfaces rest
                    {| routes := routes dump
                                 ++ convertRoutes ifName (length v4Routes) 0
                                      (v4Routes ++ v6Routes);
                       err := err dump |}
              end
          end
      | _ =>
          {| routes := routes dump;
             err := Some (Errorf ("failed to obtain metadata for interface " ++ ifName)) |}
      end
  end.

(** [dumpRoutes] dumps all routes entries associated with every
    [goRoutineIdx]-th interface; its result is what it sends to [dumpCh]. *)
Definition dumpRoutes (d : RouteDescriptor) (interfaces : list string)
    (goRoutineIdx goRoutinesCnt : nat) : routeDump :=
  dumpRoutes_loop d interfaces
    (dumpRoutes_indices goRoutineIdx goRoutinesCnt (length interfaces))
    {| routes := []; err := None |}.

(** The number of workers [Dump] starts. *)
Definition goRoutinesCnt (d : RouteDescriptor) (interfaces : list string) : Z :=
  let goRoutinesCnt := Z.quot (Z.of_nat (length interfaces)) minWorkForGoRoutine in
  let goRoutinesCnt := if (goRoutinesCnt =? 0)%Z then 1%Z else goRoutinesCnt in
  if (goRoutinesCnt >? dumpGoRoutinesCnt d)%Z then dumpGoRoutinesCnt d else goRoutinesCnt.

(** The collecting loop of [Dump] over the results still to be received
    from [dumpCh], in the order they arrive. *)
Fixpoint collect (dump : list RouteKVWithMetadata) (dumpCh : list routeDump)
  : list RouteKVWithMetadata * option error :=
  match dumpCh with
  | [] => (dump, None)
  | routeDump :: rest =>
      match err routeDump with
      | Some e => (dump, Some e)
      | None => collect (dump ++ routes routeDump) rest
      end
  end.

(** [Dump] returns all routes associated with interfaces managed by this
    agent.  The workers run as goroutines (one worker runs in place), so
    the order in which their results arrive on [dumpCh] is not fixed by the
    code: [arrival] lists the workers in that order.  [None] is the run-time
    panic of [make(chan routeDump, n)] for a negative [n]. *)
Definition Dump (d : RouteDescriptor) (arrival : list nat)
    (correlate : list RouteKVWithMetadata)
  : option (list RouteKVWithMetadata * option error) :=
  let interfaces := ListAllInterfaces (ifPlugin d) in
  let goRoutinesCnt := goRoutinesCnt d interfaces in
  if (goRoutinesCnt <? 0)%Z then None
  else
    let dumpCh :=
      map (fun idx => dumpRoutes d interfaces idx (Z.to_nat goRoutinesCnt)) arrival in
    Some (collect [] dumpCh).

(** The arrival orders a run of [Dump] can see: every worker sends exactly
    one result. *)
Definition arrival_order (d : RouteDescriptor) (arrival : list nat) : Prop :=
  Permutation arrival
    (seq 0 (Z.to_nat (goRoutinesCnt d (ListAllInterfaces (ifPlugin d))))).

Section Derived.
Context {keys : ModelKeys}.

(** [DerivedValues] derives empty value under [StaticLinkLocalRouteKey] if
    route is link-local. *)
Definition DerivedValues (d : RouteDescriptor) (key : string) (route : l3.StaticRoute)
  : list KeyValuePair :=
  let derValues : list KeyValuePair := [] in
  if l3.StaticRoute_Scope_eqb (l3.Scope route) l3.StaticRoute_LINK then
    derValues ++ [ {| KVPKey := l3_StaticLinkLocalRouteKey (l3.DstNetwork route)
                                  (l3.OutgoingInterface route);
                      KVPValue := Msg_Empty |} ]
  else derValues.

End Derived.

End Descriptor.
End route.

(* ===================================================================== *)
(** ** The VPP punt-to-host descriptor                                    *)
(* ===================================================================== *)

Module punt_to_host.

Definition PuntToHostDescriptorName : string := "vpp-punt-to-host".

(** [PuntToHostDescriptor]: its handler (the logger is the [logs] of the
    [World]). *)
Record PuntToHostDescriptor : Type := {
  puntHandler : PuntVppAPI
}.

(** [adapter.PuntToHostKVWithMetadata]. *)
Record PuntToHostKVWithMetadata : Type := {
  KVKey : string;
  Value : punt.ToHost;
  KVMetadata : Metadata;
  Origin : ValueOrigin
}.

(** [validatePuntConfig] validates VPP punt configuration. *)
Definition validatePuntConfig (d : PuntToHostDescriptor) (puntCfg : punt.ToHost)
  : option error :=
  match punt.L3Protocol_ puntCfg with
  | punt.L3Protocol_IPv4 | punt.L3Protocol_IPv6 | punt.L3Protocol_ALL =>
      match punt.L4Protocol_ puntCfg with
      | punt.L4Protocol_TCP | punt.L4Protocol_UDP =>
          if (punt.Port puntCfg =? 0)%Z then Some ErrPuntWithoutPort else None
      | _ => Some ErrPuntWithoutL4Protocol
      end
  | _ => Some ErrPuntWithoutL3Protocol
  end.

(** [Add] adds new punt to host entry or registers new punt to unix domain
    socket. *)
Definition Add (d : PuntToHostDescriptor) (key : string) (punt : punt.ToHost)
  : M (Metadata * option error) :=
  match validatePuntConfig d punt with
  | Some err => (log_Error err ;;; ret (None, Some err))%go
  | None =>
      if punt.SocketPath punt =? "" then
        (* add punt to host *)
        (err <- call_AddPunt (puntHandler d) punt ;;
         match err with
         | Some e => log_Error e ;;; ret (None, err)
         | None => ret (None, err)
         end)%go
      else
        (* register punt to socket *)
        (err <- call_RegisterPuntSocket (puntHandler d) punt ;;
         match err with
         | Some e => log_Error e ;;; ret (None, err)
         | None => ret (None, err)
         end)%go
  end.

(** [Delete] removes VPP punt configuration. *)
Definition Delete (d : PuntToHostDescriptor) (key : string) (punt : punt.ToHost)
    (metadata : Metadata) : M (option error) :=
  if punt.SocketPath punt =? "" then
    (log_Warn "Punt delete is not supported by the VPP" ;;; ret None)%go
  else
    (* deregister punt to socket *)
    (err <- call_DeregisterPuntSocket (puntHandler d) punt ;;
     match err with
     | Some e => log_Error e ;;; ret err
     | None => ret err
     end)%go.

(** [Dump] returns all configured VPP punt to host entries. *)
Definition Dump (d : PuntToHostDescriptor) (correlate : list PuntToHostKVWithMetadata)
  : M (list PuntToHostKVWithMetadata * option error) :=
  (log_Warn "Dump punt/socket register is not supported by the VPP" ;;;
   ret ([], None))%go.

(** [ModifyWithRecreate] always returns true. *)
Definition ModifyWithRecreate (d : PuntToHostDescriptor) (key : string)
    (oldPunt newPunt : punt.ToHost) (metadata : Metadata) : bool := true.

(** The loop of [IsRetriableFailure] over a list of errors. *)
Fixpoint rangeNonRetriable (err : option error) (errs : list error) : bool :=
  match errs with
  | [] => true
  | nonRetriableErr :: rest =>
      if is_error err nonRetriableErr then false else rangeNonRetriable err rest
  end.

(** [IsRetriableFailure] returns false for errors related to invalid
    configuration. *)
Definition IsRetriableFailure (d : PuntToHostDescriptor) (err : option error) : bool :=
  let nonRetriable := [
    ErrPuntWithoutL3Protocol;
    ErrPuntWithoutL4Protocol;
    ErrPuntWithoutPort
  ] in
  rangeNonRetriable err nonRetriable.

End punt_to_host.

(* ===================================================================== *)
(** ** The mock of the resync DSL                                         *)
(* ===================================================================== *)

(** [MockDataResyncDSL] with the two of its methods whose value types are
    modelled here, and [Send].  Of the embedded [CommonMockDSL] the methods
    use the map [Values] and the function [CommitFunc]; the map is a
    function from keys to the value stored, if any. *)
Module mockdsl.
Section DSL.
Context {lib : GoLib} {keys : ModelKeys}.

Definition ValuesMap : Type := string -> option Message.

Record MockDataResyncDSL : Type := {
  Values : ValuesMap;
  CommitFunc : ValuesMap -> option error
}.

(** [dsl.Reply]. *)
Record Reply : Type := { Err : option error }.

(** [d.Values[key] = val; return d]. *)
Definition store (d : MockDataResyncDSL) (key : string) (val : Message)
  : MockDataResyncDSL :=
  {| Values := fun k => if k =? key then Some val else Values d k;
     CommitFunc := CommitFunc d |}.

(** [LinuxRoute] adds Linux route to the mock RESYNC request.  The key is
    what the library's builder returns; the builder reads the destination
    as a network and does not return on one that is none, a run this
    definition does not describe. *)
Definition LinuxRoute (d : MockDataResyncDSL) (val : l3.StaticRoute) : MockDataResyncDSL :=
  let key := l3_StaticRouteKey (l3.DstNetwork val) (l3.OutgoingInterface val) in
  store d key (Msg_LinuxRoute val).

(** [PuntToHost] adds request to RESYNC a rule used to punt L4 traffic to
    a host. *)
Definition PuntToHost (d : MockDataResyncDSL) (val : punt.ToHost) : MockDataResyncDSL :=
  let key := punt_ToHostKey (punt.L3Protocol_ val) (punt.L4Protocol_ val) (punt.Port val) in
  store d key (Msg_PuntToHost val).

(** [Send] commits the transaction into the mock DB. *)
Definition Send (d : MockDataResyncDSL) : Reply :=
  let err := CommitFunc d (Values d) in
  {| Err := err |}.

End DSL.
End mockdsl.

(* ===================================================================== *)
(** ** A reference instance of the library interface                      *)
(* ===================================================================== *)

(** [RefLib] implements [GoLib] by executable functions, so that the
    descriptors can be run on concrete routes.  Addresses are dotted-quad
    IPv4 or colon-separated IPv6 groups with at most one [::]; letters are
    ASCII and hexadecimal digits are read in either case. *)
Module RefLib.

Definition lower (c : ascii) : ascii :=
  let n := nat_of_ascii c in
  if (65 <=? n)%nat && (n <=? 90)%nat then ascii_of_nat (n + 32) else c.

Fixpoint ToLower (s : string) : string :=
  match s with
  | EmptyString => EmptyString
  | String c rest => String (lower c) (ToLower rest)
  end.

(** The value of a (lower-case) hexadecimal digit. *)
Definition digitVal (c : ascii) : option Z :=
  let n := Z.of_nat (nat_of_ascii c) in
  if (48 <=? n)%Z && (n <=? 57)%Z then Some (n - 48)%Z
  else if (97 <=? n)%Z && (n <=? 102)%Z then Some (n - 87)%Z
  else None.

Fixpoint number (base acc : Z) (s : string) : option Z :=
  match s with
  | EmptyString => Some acc
  | String c rest =>
      match digitVal c with
      | Some v => if (v <? base)%Z then number base (acc * base + v) rest else None
      | None => None
      end
  end.

(** A number of one to [maxlen] digits. *)
Definition parseNumber (base : Z) (maxlen : nat) (s : string) : option Z :=
  if (String.length s =? 0)%nat || (maxlen <? String.length s)%nat then None
  else number base 0 s.

(** [strings.Split] for a one-byte separator. *)
Fixpoint split (sep : ascii) (s : string) : list string :=
  match s with
  | EmptyString => [EmptyString]
  | String c rest =>
      if Ascii.eqb c sep then EmptyString :: split sep rest
      else match split sep rest with
           | [] => [String c EmptyString]
           | h :: t => String c h :: t
           end
  end.

Fixpoint sequence {A : Type} (l : list (option A)) : option (list A) :=
  match l with
  | [] => Some []
  | None :: _ => None
  | Some a :: rest =>
      match sequence rest with
      | Some r => Some (a :: r)
      | None => None
      end
  end.

Definition parseIPv4 (s : string) : option (list Z) :=
  match sequence (map (parseNumber 10 3) (split "." s)) with
  | Some [a; b; c; d] =>
      if forallb (fun x => (x <=? 255)%Z) [a; b; c; d] then Some [a; b; c; d] else None
  | _ => None
  end.

(** A leading [::] leaves two empty groups in front; one of them is
    dropped.  A single leading colon is refused. *)
Definition dropLeadingEmpty (gs : list string) : option (list string) :=
  match gs with
  | EmptyString :: ((EmptyString :: _) as t) => Some t
  | EmptyString :: _ => None
  | _ => Some gs
  end.

Definition isEmpty (s : string) : bool := (String.length s =? 0)%nat.

Definition groupBytes (v : Z) : list Z := [(v / 256)%Z; (v mod 256)%Z].

(** The groups of an address with the [::], if any, filled with zeros. *)
Definition expandGroups (gs : list string) : option (list Z) :=
  let empties := List.length (filter isEmpty gs) in
  if (empties =? 0)%nat then
    if (List.length gs =? 8)%nat then sequence (map (parseNumber 16 4) gs) else None
  else if (empties =? 1)%nat && (List.length gs <=? 8)%nat then
    let zeros := repeat 0%Z (9 - List.length gs) in
    match sequence (map (fun g => if isEmpty g then Some None
                                  else option_map Some (parseNumber 16 4 g)) gs) with
    | Some vs =>
        Some (flat_map (fun v => match v with Some x => [x] | None => zeros end) vs)
    | None => None
    end
  else None.

Definition parseIPv6 (s : string) : option (list Z) :=
  match dropLeadingEmpty (split ":" s) with
  | None => None
  | Some gs =>
      match dropLeadingEmpty (rev gs) with
      | None => None
      | Some sg => option_map (flat_map groupBytes) (expandGroups (rev sg))
      end
  end.

(** The first dot or colon of a string decides how it is read. *)
Fixpoint firstSep (s : string) : option ascii :=
  match s with
  | EmptyString => None
  | String c rest =>
      if Ascii.eqb c "." || Ascii.eqb c ":" then Some c else firstSep rest
  end.

(** An address is made of hexadecimal digits, dots and colons. *)
Definition addrChar (c : ascii) : bool :=
  match digitVal c with
  | Some _ => true
  | None => Ascii.eqb c "." || Ascii.eqb c ":"
  end.

Fixpoint allChars (p : ascii -> bool) (s : string) : bool :=
  match s with
  | EmptyString => true
  | String c rest => p c && allChars p rest
  end.

Definition parseIP (s : string) : option net.IP :=
  if allChars addrChar s then
    match firstSep s with
    | Some c =>
        if Ascii.eqb c "." then
          match parseIPv4 s with
          | Some [a; b; c; d] => Some (net.IPv4 a b c d)
          | _ => None
          end
        else parseIPv6 s
    | None => None
    end
  else None.

Definition ParseIP (s : string) : option net.IP := parseIP (ToLower s).

(** [net.CIDRMask(ones, 8 * nbytes)]. *)
Fixpoint CIDRMask (ones : Z) (nbytes : nat) : net.IPMask :=
  match nbytes with
  | O => []
  | S k =>
      (if (8 <=? ones)%Z then 255
       else if (ones <=? 0)%Z then 0
       else 256 - 2 ^ (8 - ones))%Z :: CIDRMask (ones - 8) k
  end.

Fixpoint maskBytes (ip mask : list Z) : list Z :=
  match ip, mask with
  | b :: ip', m :: mask' => Z.land b m :: maskBytes ip' mask'
  | _, _ => []
  end.

Definition parseCIDR (s : string) : option (net.IP * net.IPNet) :=
  match split "/" s with
  | [addr; mask] =>
      match parseNumber 10 3 mask with
      | None => None
      | Some n =>
          match parseIPv4 addr with
          | Some [a; b; c; d] =>
              if (n <=? 32)%Z then
                let m := CIDRMask n 4 in
                Some (net.IPv4 a b c d,
                      {| net.IP_ := maskBytes [a; b; c; d] m; net.Mask := m |})
              else None
          | _ =>
              match parseIPv6 addr with
              | Some ip =>
                  if (n <=? 128)%Z then
                    let m := CIDRMask n 16 in
                    Some (ip, {| net.IP_ := maskBytes ip m; net.Mask := m |})
                  else None
              | None => None
              end
          end
      end
  | _ => None
  end.

Definition ParseCIDR (s : string) : option (net.IP * net.IPNet) := parseCIDR (ToLower s).

(** Printing: decimal and hexadecimal numbers, addresses and networks
    (IPv6 groups are printed without zero compression). *)
Definition digitChar (v : Z) : ascii :=
  ascii_of_nat (Z.to_nat (if (v <? 10)%Z then 48 + v else 87 + v)).

Fixpoint showNumber (fuel : nat) (base n : Z) (acc : string) : string :=
  match fuel with
  | O => acc
  | S fuel' =>
      let acc' := String (digitChar (n mod base)) acc in
      if (n <? base)%Z then acc' else showNumber fuel' base (n / base) acc'
  end.

Definition itoa (n : Z) : string := showNumber 20 10 n "".
Definition xtoa (n : Z) : string := showNumber 16 16 n "".

Fixpoint join (sep : string) (l : list string) : string :=
  match l with
  | [] => ""
  | [x] => x
  | x :: rest => x ++ sep ++ join sep rest
  end.

Fixpoint groupsOf (ip : list Z) : list Z :=
  match ip with
  | hi :: lo :: rest => (hi * 256 + lo)%Z :: groupsOf rest
  | _ => []
  end.

Definition IP_String (ip : net.IP) : string :=
  match net.To4 ip with
  | Some ip4 => join "." (map itoa ip4)
  | None =>
      if (List.length ip =? net.IPv6len)%nat then join ":" (map xtoa (groupsOf ip))
      else if (List.length ip =? 0)%nat then "<nil>"
      else "?"
  end.

(** The number of leading one bits of a byte of a mask. *)
Definition onesOf (b : Z) : Z :=
  if (b =? 255)%Z then 8 else if (b =? 0)%Z then 0 else 8 - Z.log2 (256 - b).

Definition IPNet_String (n : net.IPNet) : string :=
  IP_String (net.IP_ n) ++ "/" ++ itoa (fold_right Z.add 0%Z (map onesOf (net.Mask n))).

Definition IPNet_Contains (n : option net.IPNet) (ip : net.IP) : bool :=
  match n with
  | None => false
  | Some n =>
      let ip := match net.To4 ip with Some x => x | None => ip end in
      let nn := match net.To4 (net.IP_ n) with Some x => x | None => net.IP_ n end in
      let m := if (List.length (net.Mask n) =? net.IPv6len)%nat
                  && (List.length nn =? net.IPv4len)%nat
               then skipn 12 (net.Mask n) else net.Mask n in
      (List.length ip =? List.length nn)%nat
      && net.bytesEqual (maskBytes nn m) (maskBytes ip m)
  end.

(** An address is IPv6 when it parses as an address and has no 4-byte
    form; a string that is no address (a network in CIDR notation, for
    instance) is answered with false and an error. *)
Definition IsIPv6 (addr : string) : bool * option error :=
  match ParseIP addr with
  | None => (false, Some (Errorf ("invalid IP address: " ++ addr)))
  | Some ip => (match net.To4 ip with None => true | Some _ => false end, None)
  end.

Definition StaticRouteKeyPrefix : string := "linux/config/v2/route/".
Definition StaticLinkLocalRouteKeyPrefix : string := "linux/link-local-route/".
Definition InterfaceStateKeyPrefix : string := "linux/interface/state/".
Definition InterfaceAddressKeyPrefix : string := "linux/interface/address/".

(** A route key is [prefix ++ network ++ "/" ++ length ++ "/" ++ interface],
    the network and the length of its mask printed from the destination as
    [ParseCIDR] reads it.  The builders of the library do not return on a
    destination that is no network; here such a destination is written
    into the key as given. *)
Definition staticRouteKeyFromTemplate (pfx dstNetwork outgoingInterface : string)
  : string :=
  match ParseCIDR dstNetwork with
  | Some (_, dstNet) => pfx ++ IPNet_String dstNet ++ "/" ++ outgoingInterface
  | None => pfx ++ dstNetwork ++ "/" ++ outgoingInterface
  end.

Definition StaticRouteKey (dstNetwork outgoingInterface : string) : string :=
  staticRouteKeyFromTemplate StaticRouteKeyPrefix dstNetwork outgoingInterface.

Definition InterfaceStateKey (ifName : string) (ifIsUp : bool) : string :=
  InterfaceStateKeyPrefix ++ ifName ++ (if ifIsUp then "/UP" else "/DOWN").

(** A key [prefix ++ ifName ++ "/" ++ address ++ "/" ++ length]. *)
Definition parseIfNetKey (pfx key : string) : string * option net.IPNet * bool :=
  if String.prefix pfx key then
    match split "/" (substring (String.length pfx) (String.length key) key) with
    | [ifName; addr; len] =>
        match ParseCIDR (addr ++ "/" ++ len) with
        | Some (_, n) => (ifName, Some n, true)
        | None => ("", None, false)
        end
    | _ => ("", None, false)
    end
  else ("", None, false).

(** A key [prefix ++ network ++ "/" ++ length ++ "/" ++ interface]; the
    interface is what follows the length, slashes included. *)
Definition ParseStaticLinkLocalRouteKey (key : string) : option net.IPNet * string * bool :=
  if String.prefix StaticLinkLocalRouteKeyPrefix key then
    match split "/" (substring (String.length StaticLinkLocalRouteKeyPrefix)
                               (String.length key) key) with
    | addr :: len :: (_ :: _) as ifName =>
        match ParseCIDR (addr ++ "/" ++ len) with
        | Some (_, n) => (Some n, join "/" ifName, true)
        | None => (None, "", false)
        end
    | _ => (None, "", false)
    end
  else (None, "", false).

Definition ParseInterfaceAddressKey (key : string) : string * option net.IPNet * bool :=
  parseIfNetKey InterfaceAddressKeyPrefix key.

#[export] Instance lib : GoLib := {|
  net_ParseIP := ParseIP;
  net_ParseCIDR := ParseCIDR;
  net_IP_String := IP_String;
  net_IPNet_String := IPNet_String;
  net_IPNet_Contains := IPNet_Contains;
  strings_ToLower := ToLower;
  addrs_IsIPv6 := IsIPv6;
  l3_StaticRouteKey := StaticRouteKey;
  l3_ParseStaticLinkLocalRouteKey := ParseStaticLinkLocalRouteKey;
  ifmodel_InterfaceStateKey := InterfaceStateKey;
  ifmodel_ParseInterfaceAddressKey := ParseInterfaceAddressKey;
  minWorkForGoRoutine := 3
|}.

(** A link-local route key names the network, the length of its mask and
    then the interface, as a route key does. *)
Definition StaticLinkLocalRouteKey (dstNetwork outgoingInterface : string) : string :=
  staticRouteKeyFromTemplate StaticLinkLocalRouteKeyPrefix dstNetwork outgoingInterface.

Definition showL3 (p : punt.L3Protocol) : string :=
  match p with
  | punt.L3Protocol_UNDEFINED => "UNDEFINED_L3"
  | punt.L3Protocol_IPv4 => "IPv4"
  | punt.L3Protocol_IPv6 => "IPv6"
  | punt.L3Protocol_ALL => "ALL"
  end.

Definition showL4 (p : punt.L4Protocol) : string :=
  match p with
  | punt.L4Protocol_UNDEFINED => "UNDEFINED_L4"
  | punt.L4Protocol_TCP => "TCP"
  | punt.L4Protocol_UDP => "UDP"
  end.

Definition ToHostKey (l3Proto : punt.L3Protocol) (l4Proto : punt.L4Protocol) (port : Z)
  : string :=
  "vpp/config/v2/punt/tohost/l3/" ++ showL3 l3Proto ++ "/l4/" ++ showL4 l4Proto
  ++ "/port/" ++ itoa port.

#[export] Instance keys : ModelKeys := {|
  l3_StaticLinkLocalRouteKey := StaticLinkLocalRouteKey;
  punt_ToHostKey := ToHostKey
|}.

End RefLib.

(* ===================================================================== *)
(** ** Vocabulary of the properties                                       *)
(* ===================================================================== *)

(** [runs_to m w a cs]: started in world [w], the operation [m] returns [a],
    makes exactly the resource calls [cs], in that order, and leaves the
    thread in the namespace it started in. *)
Definition runs_to {A : Type} (m : M A) (w : World) (a : A) (cs : list Call) : Prop :=
  fst (m w) = a /\ calls (snd (m w)) = calls w ++ cs /\ netns (snd (m w)) = netns w.

(** The three checks [updateRoute] makes before it calls a collaborator. *)
Definition passes_presence_checks (route : l3.StaticRoute) : Prop :=
  l3.OutgoingInterface route <> ""
  /\ l3.DstNetwork route <> ""
  /\ ~ (l3.Scope route = l3.StaticRoute_LINK /\ l3.GwAddr route <> "").

(** The error of a failed interface lookup in [updateRoute]. *)
Definition lookup_error (route : l3.StaticRoute) : error :=
  Errorf ("failed to obtain metadata for interface " ++ l3.OutgoingInterface route).

(** A route with another gateway address. *)
Definition with_GwAddr (route : l3.StaticRoute) (gw : string) : l3.StaticRoute :=
  {| l3.OutgoingInterface := l3.OutgoingInterface route;
     l3.Scope := l3.Scope route;
     l3.DstNetwork := l3.DstNetwork route;
     l3.GwAddr := gw;
     l3.Metric := l3.Metric route |}.

(** The result worker [idx] of a run of [Dump] sends to the channel. *)
Definition worker_result {lib : GoLib} (d : route.RouteDescriptor) (idx : nat)
  : route.routeDump :=
  route.dumpRoutes d (ListAllInterfaces (route.ifPlugin d)) idx
    (Z.to_nat (route.goRoutinesCnt d (ListAllInterfaces (route.ifPlugin d)))).

(** A dump lists every punt of [existing]. *)
Definition enumerates (existing : list punt.ToHost)
    (dump : list punt_to_host.PuntToHostKVWithMetadata) : Prop :=
  forall p, In p existing -> exists kv, In kv dump /\ punt_to_host.Value kv = p.

Section Representation.
Context {lib : GoLib}.

(** Two strings that differ in the case of letters only. *)
Definition same_letters (a b : string) : Prop :=
  strings_ToLower a = strings_ToLower b.

(** Two strings that are CIDR notations of one and the same network. *)
Definition same_network (a b : string) : Prop :=
  exists ia ib n, net_ParseCIDR a = Some (ia, n) /\ net_ParseCIDR b = Some (ib, n).

End Representation.

(** What the properties of the comparison functions use of the library:
    lower-casing keeps a non-empty string non-empty; the parsers and the
    address-family test do not look at the case of letters; the family test
    gives one answer for two notations of one network; and the two "any"
    addresses parse to the unspecified address of their family. *)
Class LibraryLaws (lib : GoLib) : Prop := {
  ToLower_empty : forall s, strings_ToLower s = strings_ToLower "" -> s = "";
  ParseIP_ToLower :
    forall a b, strings_ToLower a = strings_ToLower b -> net_ParseIP a = net_ParseIP b;
  ParseCIDR_ToLower :
    forall a b, strings_ToLower a = strings_ToLower b -> net_ParseCIDR a = net_ParseCIDR b;
  IsIPv6_ToLower :
    forall a b, strings_ToLower a = strings_ToLower b ->
                fst (addrs_IsIPv6 a) = fst (addrs_IsIPv6 b);
  IsIPv6_network :
    forall a b ia ib n,
      net_ParseCIDR a = Some (ia, n) -> net_ParseCIDR b = Some (ib, n) ->
      fst (addrs_IsIPv6 a) = fst (addrs_IsIPv6 b);
  ParseIP_ipv4AddrAny : net_ParseIP route.ipv4AddrAny = Some net.IPv4zero;
  ParseIP_ipv6AddrAny : net_ParseIP route.ipv6AddrAny = Some net.IPv6unspecified
}.

(** What [getGwAddr] meets when it puts the family test to a destination:
    [addrs.IsIPv6] reads an address, and answers false (with an error) on a
    string that [net.ParseIP] refuses; and a network in CIDR notation is
    such a string. *)
Class FamilyLaws (lib : GoLib) : Prop := {
  IsIPv6_no_address : forall s, net_ParseIP s = None -> fst (addrs_IsIPv6 s) = false;
  network_is_no_address :
    forall s (x : net.IP * net.IPNet), net_ParseCIDR s = Some x -> net_ParseIP s = None
}.

(** A Netlink operation as [updateRoute] is given it: the call is
    recorded and answered in the namespace the thread is in.  [mk] and [op]
    are the call and the answer of one of the three operations. *)
Definition handler_call (mk : netlink.Route -> Call)
    (op : option namespace.NetNamespace -> netlink.Route -> option error)
    (r : netlink.Route) : M (option error) :=
  (record_call (mk r) ;;; ns <- get_netns ;; ret (op ns r))%go.

(** The world after further resource calls and log entries, the thread
    being in the namespace it was in. *)
Definition after (w : World) (cs : list Call) (ls : list (LogLevel * string)) : World :=
  {| netns := netns w; calls := calls w ++ cs; logs := logs w ++ ls |}.

(** What [updateRoute] has reached when it is about to switch namespace:
    either the error of the first failing check, with whether the interface
    index has been consulted, or the interface metadata and the Netlink
    route it has built. *)
Inductive Prepared : Type :=
| Refused (e : error) (lookedUp : bool)
| Ready (ifMeta : LinuxIfMetadata) (netlinkRoute : netlink.Route).

Definition prepare {lib : GoLib} (d : route.RouteDescriptor) (route : l3.StaticRoute)
  : Prepared :=
  if l3.OutgoingInterface route =? "" then Refused ErrRouteWithoutInterface false
  else if l3.DstNetwork route =? "" then Refused ErrRouteWithoutDestination false
  else if l3.StaticRoute_Scope_eqb (l3.Scope route) l3.StaticRoute_LINK
          && negb (l3.GwAddr route =? "") then Refused ErrRouteLinkWithGw false
  else
    match LookupByName (route.ifPlugin d) (l3.OutgoingInterface route) with
    | (Some ifMeta, true) =>
        match net_ParseCIDR (l3.DstNetwork route) with
        | None => Refused ErrRouteWithInvalidDst true
        | Some (_, dstNet) =>
            match (if l3.GwAddr route =? "" then Some []
                   else net_ParseIP (l3.GwAddr route)) with
            | None => Refused ErrRouteWithInvalidGw true
            | Some gwAddr =>
                match route.rtScopeFromNBToNetlink (l3.Scope route) with
                | inr e => Refused e true
                | inl scope =>
                    Ready ifMeta {| netlink.LinkIndex := LinuxIfIndex ifMeta;
                                    netlink.Dst := Some dstNet;
                                    netlink.Gw := gwAddr;
                                    netlink.RouteScope := scope;
                                    netlink.Priority := l3.Metric route |}
                end
            end
        end
    | _ => Refused (lookup_error route) true
    end.

(** The route value [route] resolves to the Netlink route [nr] on the
    interface with metadata [m]: it passes the presence checks, its
    interface is in the index, its addresses parse and its scope has a
    Netlink counterpart. *)
Definition resolves {lib : GoLib} (d : route.RouteDescriptor) (route : l3.StaticRoute)
    (m : LinuxIfMetadata) (nr : netlink.Route) : Prop :=
  passes_presence_checks route
  /\ LookupByName (route.ifPlugin d) (l3.OutgoingInterface route) = (Some m, true)
  /\ exists ip dstNet gwAddr scope,
       net_ParseCIDR (l3.DstNetwork route) = Some (ip, dstNet)
       /\ (if l3.GwAddr route =? "" then gwAddr = []
           else net_ParseIP (l3.GwAddr route) = Some gwAddr)
       /\ route.rtScopeFromNBToNetlink (l3.Scope route) = inl scope
       /\ nr = {| netlink.LinkIndex := LinuxIfIndex m;
                  netlink.Dst := Some dstNet;
                  netlink.Gw := gwAddr;
                  netlink.RouteScope := scope;
                  netlink.Priority := l3.Metric route |}.

(** The resource calls one update can make: none, the interface lookup
    alone, the lookup and a namespace switch, or the lookup and one Netlink
    operation between a namespace switch and its revert. *)
Inductive update_calls (ifName : string) (mk : netlink.Route -> Call) : list Call -> Prop :=
| update_calls_none : update_calls ifName mk []
| update_calls_lookup : update_calls ifName mk [Call_LookupByName ifName]
| update_calls_switch (ns : option namespace.NetNamespace) :
    update_calls ifName mk [Call_LookupByName ifName; Call_SwitchToNamespace ns]
| update_calls_operation (ns : option namespace.NetNamespace) (r : netlink.Route) :
    update_calls ifName mk [Call_LookupByName ifName; Call_SwitchToNamespace ns;
                            mk r; Call_revertNs].

(** What holds of every entry of a route dump over [interfaces]. *)
Definition well_dumped {lib : GoLib} (interfaces : list string)
    (kv : route.RouteKVWithMetadata) : Prop :=
  route.Origin kv = UnknownOrigin
  /\ route.KVMetadata kv = None
  /\ route.KVKey kv = l3_StaticRouteKey (l3.DstNetwork (route.Value kv))
                                        (l3.OutgoingInterface (route.Value kv))
  /\ In (l3.OutgoingInterface (route.Value kv)) interfaces
  /\ l3.Scope (route.Value kv) <> l3.StaticRoute_UNDEFINED
  /\ (0 <= l3.Metric (route.Value kv) < 2 ^ 32)%Z.

(** Interface [i] of the list is one whose metadata the index lacks, or
    whose routes Netlink fails to list with error [e]. *)
Definition fails_at (d : route.RouteDescriptor) (interfaces : list string)
    (i : nat) (e : error) : Prop :=
  ((forall m, LookupByName (route.ifPlugin d) (nth i interfaces "") <> (Some m, true))
   /\ e = Errorf ("failed to obtain metadata for interface " ++ nth i interfaces ""))
  \/ (exists m v4 v6,
        LookupByName (route.ifPlugin d) (nth i interfaces "") = (Some m, true)
        /\ SwitchToNamespace (route.nsPlugin d) (Namespace m) = None
        /\ GetStaticRoutes (route.l3Handler d) (Namespace m) (LinuxIfIndex m)
           = (v4, v6, Some e)).

(** The entry [dumpRoutes] makes of a route of the IPv4 list ([v4] true) or
    of the IPv6 list of an interface. *)
Definition convertAs {lib : GoLib} (v4 : bool) (ifName : string) (r : netlink.Route)
  : list route.RouteKVWithMetadata :=
  route.convertRoute ifName (if v4 then 1 else 0) 0 r.

(** Sample worlds, collaborators and values on which the descriptors are
    run in the examples below. *)
Module Samples.

Definition world0 : World := {| netns := None; calls := []; logs := [] |}.

Definition ifMeta (idx : Z) : LinuxIfMetadata :=
  {| LinuxIfIndex := idx; Namespace := None |}.

(** An interface index that knows [eth0] only, and one that knows nothing. *)
Definition index_eth0 : IfPluginAPI := {|
  LookupByName := fun name => if name =? "eth0" then (Some (ifMeta 2), true) else (None, false);
  ListAllInterfaces := ["eth0"]
|}.

Definition index_empty : IfPluginAPI := {|
  LookupByName := fun _ => (None, false);
  ListAllInterfaces := []
|}.

Definition ns_ok : NsPluginAPI := {| SwitchToNamespace := fun _ => None |}.

(** The default route of an interface, as Netlink reports it. *)
Definition defaultRoute (ifIdx : Z) : netlink.Route := {|
  netlink.LinkIndex := ifIdx;
  netlink.Dst := None;
  netlink.Gw := [];
  netlink.RouteScope := netlink.SCOPE_UNIVERSE;
  netlink.Priority := 0
|}.

Definition netlink_ok : NetlinkAPI := {|
  AddStaticRoute := fun _ _ => None;
  DelStaticRoute := fun _ _ => None;
  ReplaceStaticRoute := fun _ _ => None;
  GetStaticRoutes := fun _ ifIdx => ([defaultRoute ifIdx], [], None)
|}.

Definition d_eth0 : route.RouteDescriptor := {|
  route.l3Handler := netlink_ok;
  route.ifPlugin := index_eth0;
  route.nsPlugin := ns_ok;
  route.dumpGoRoutinesCnt := 4
|}.

Definition d_empty : route.RouteDescriptor := {|
  route.l3Handler := netlink_ok;
  route.ifPlugin := index_empty;
  route.nsPlugin := ns_ok;
  route.dumpGoRoutinesCnt := 4
|}.

Definition mkRoute (ifName : string) (scope : l3.StaticRoute_Scope) (dst gw : string)
  : l3.StaticRoute :=
  {| l3.OutgoingInterface := ifName; l3.Scope := scope;
     l3.DstNetwork := dst; l3.GwAddr := gw; l3.Metric := 0 |}.

(** Six interfaces, of which [eth2] has no metadata in the index. *)
Definition six : list string := ["eth0"; "eth1"; "eth2"; "eth3"; "eth4"; "eth5"].

Definition index_six : IfPluginAPI := {|
  LookupByName := fun name =>
    if name =? "eth2" then (None, false)
    else if existsb (String.eqb name) six then (Some (ifMeta 2), true)
    else (None, false);
  ListAllInterfaces := six
|}.

Definition d_six : route.RouteDescriptor := {|
  route.l3Handler := netlink_ok;
  route.ifPlugin := index_six;
  route.nsPlugin := ns_ok;
  route.dumpGoRoutinesCnt := 4
|}.

(** The entry [dumpRoutes] makes of the default route of an interface. *)
Definition dumpedDefaultRoute (ifName : string) : route.RouteKVWithMetadata := {|
  route.KVKey := RefLib.StaticRouteKey "0.0.0.0/0" ifName;
  route.Value := mkRoute ifName l3.StaticRoute_GLOBAL "0.0.0.0/0" "";
  route.KVMetadata := None;
  route.Origin := UnknownOrigin
|}.

(** A punt handler whose calls succeed, and a punt to the host. *)
Definition punt_ok : PuntVppAPI := {|
  AddPunt := fun _ => None;
  RegisterPuntSocket := fun _ => None;
  DeregisterPuntSocket := fun _ => None
|}.

Definition d_punt : punt_to_host.PuntToHostDescriptor :=
  {| punt_to_host.puntHandler := punt_ok |}.

Definition mkPunt (socketPath : string) : punt.ToHost := {|
  punt.L3Protocol_ := punt.L3Protocol_IPv4;
  punt.L4Protocol_ := punt.L4Protocol_UDP;
  punt.Port := 9000;
  punt.SocketPath := socketPath
|}.

(** A route of the link-local IPv6 network, as Netlink reports it. *)
Definition linkLocalV6Route (ifIdx : Z) : netlink.Route := {|
  netlink.LinkIndex := ifIdx;
  netlink.Dst := Some {| net.IP_ := [254; 128; 0; 0; 0; 0; 0; 0; 0; 0; 0; 0; 0; 0; 0; 0]%Z;
                         net.Mask := RefLib.CIDRMask 64 16 |};
  netlink.Gw := [];
  netlink.RouteScope := netlink.SCOPE_LINK;
  netlink.Priority := 256
|}.

(** A descriptor that may start no dump worker. *)
Definition d_no_workers : route.RouteDescriptor := {|
  route.l3Handler := netlink_ok;
  route.ifPlugin := index_six;
  route.nsPlugin := ns_ok;
  route.dumpGoRoutinesCnt := 0
|}.

(** An empty mock of the resync DSL whose commit succeeds. *)
Definition emptyDSL : mockdsl.MockDataResyncDSL :=
  {| mockdsl.Values := fun _ => None; mockdsl.CommitFunc := fun _ => None |}.

End Samples.

(* ===================================================================== *)
(** ** Error classification                                               *)
(* ===================================================================== *)

Section Classification.

Lemma is_error_eq (e : option error) (s : error) :
  is_error e s = true -> e = Some s.
Proof.
  destruct e as [e|]; [|discriminate].
  destruct e, s; simpl; intro H; try discriminate H; reflexivity.
Qed.

(** The loop of [IsRetriableFailure] answers false exactly on the members
    of the list it ranges over, provided these are package-level errors. *)
Lemma route_range_false_iff (e : option error) (errs : list error) :
  (forall s, In s errs -> is_error (Some s) s = true) ->
  route.rangeNonRetriable e errs = false <-> exists s, In s errs /\ e = Some s.
Proof.
  intros Hs. induction errs as [|s errs IH]; simpl.
  - split; [discriminate|intros (s & [] & _)].
  - destruct (is_error e s) eqn:E.
    + split; [intros _|reflexivity].
      exists s. split; [now left|now apply is_error_eq].
    + rewrite IH by (intros; apply Hs; now right).
      split; intros (s' & Hin & He).
      * exists s'. split; [now right|assumption].
      * destruct Hin as [->|Hin]; [|now exists s'].
        subst e. rewrite Hs in E by now left. discriminate.
Qed.

(** C4.  [IsRetriableFailure] of the route descriptor answers false exactly
    on its six declared terminal errors, [IsRetriableFailure] of the
    punt-to-host descriptor answers false exactly on its three; every other
    error value (the nil error and an error allocated at run time with
    whatever message, in particular) is retriable for both. *)
Theorem IsRetriableFailure_terminal_sets
    (rd : route.RouteDescriptor) (pd : punt_to_host.PuntToHostDescriptor)
    (e : option error) :
  (route.IsRetriableFailure rd e = false <->
     e = Some ErrRouteWithoutInterface \/ e = Some ErrRouteWithoutDestination \/
     e = Some ErrRouteWithUndefinedScope \/ e = Some ErrRouteWithInvalidDst \/
     e = Some ErrRouteWithInvalidGw \/ e = Some ErrRouteLinkWithGw)
  /\ (punt_to_host.IsRetriableFailure pd e = false <->
     e = Some ErrPuntWithoutL3Protocol \/ e = Some ErrPuntWithoutL4Protocol \/
     e = Some ErrPuntWithoutPort)
  /\ (forall msg, route.IsRetriableFailure rd (Some (Errorf msg)) = true
               /\ punt_to_host.IsRetriableFailure pd (Some (Errorf msg)) = true)
  /\ route.IsRetriableFailure rd None = true
  /\ punt_to_host.IsRetriableFailure pd None = true.
Proof.
  unfold route.IsRetriableFailure, punt_to_host.IsRetriableFailure.
  (* the two descriptors run the same loop *)
  change (punt_to_host.rangeNonRetriable e) with (route.rangeNonRetriable e).
  repeat split; try reflexivity.
  - intros H. apply route_range_false_iff in H.
    + destruct H as (s & Hin & ->). simpl in Hin. intuition (subst; auto 10).
    + intros s Hin. simpl in Hin. intuition (subst; reflexivity).
  - intros H. apply route_range_false_iff.
    + intros s Hin. simpl in Hin. intuition (subst; reflexivity).
    + unfold route.nonRetriableErrs.
      destruct H as [->|[->|[->|[->|[->| ->]]]]]; eexists; (split; [|reflexivity]);
        simpl; auto 10.
  - intros H. apply route_range_false_iff in H.
    + destruct H as (s & Hin & ->). simpl in Hin. intuition (subst; auto).
    + intros s Hin. simpl in Hin. intuition (subst; reflexivity).
  - intros H. apply route_range_false_iff.
    + intros s Hin. simpl in Hin. intuition (subst; reflexivity).
    + destruct H as [->|[->| ->]]; eexists; (split; [|reflexivity]); simpl; auto.
Qed.

End Classification.

(* ===================================================================== *)
(** ** Validation in [updateRoute]                                        *)
(* ===================================================================== *)

Section Validation.
Context {lib : GoLib}.

Lemma Scope_eqb_eq (a b : l3.StaticRoute_Scope) :
  l3.StaticRoute_Scope_eqb a b = true <-> a = b.
Proof.
  destruct a, b; simpl; split; intro H; try reflexivity; discriminate H.
Qed.

Lemma link_with_gw_test (route : l3.StaticRoute) :
  l3.StaticRoute_Scope_eqb (l3.Scope route) l3.StaticRoute_LINK
  && negb (l3.GwAddr route =? "") = true
  <-> l3.Scope route = l3.StaticRoute_LINK /\ l3.GwAddr route <> "".
Proof.
  rewrite andb_true_iff, Scope_eqb_eq, negb_true_iff.
  now rewrite <- (String.eqb_neq (l3.GwAddr route) "").
Qed.

(** Case analysis on the three tests, turning each into an equation or
    disequation on the route's fields. *)
Lemma presence_checks_cases (route : l3.StaticRoute) :
  l3.OutgoingInterface route = ""
  \/ (l3.OutgoingInterface route <> "" /\ l3.DstNetwork route = "")
  \/ (l3.OutgoingInterface route <> "" /\ l3.DstNetwork route <> ""
      /\ l3.Scope route = l3.StaticRoute_LINK /\ l3.GwAddr route <> "")
  \/ passes_presence_checks route.
Proof.
  unfold passes_presence_checks.
  destruct (String.eqb_spec (l3.OutgoingInterface route) ""); [now left|].
  destruct (String.eqb_spec (l3.DstNetwork route) ""); [right; now left|].
  destruct (l3.StaticRoute_Scope_eqb (l3.Scope route) l3.StaticRoute_LINK
            && negb (l3.GwAddr route =? "")) eqn:E.
  - apply link_with_gw_test in E. right; right; left. tauto.
  - right; right; right. repeat split; try assumption.
    intro H. apply link_with_gw_test in H. congruence.
Qed.

(** What [updateRoute] does when one of the three checks fails: it logs
    and returns the error, and calls no collaborator. *)
Lemma updateRoute_without_interface d route actionName actionClb w :
  l3.OutgoingInterface route = "" ->
  runs_to (route.updateRoute d route actionName actionClb) w
          (Some ErrRouteWithoutInterface) [].
Proof.
  intros H. unfold route.updateRoute. rewrite H. simpl.
  unfold runs_to, bind; simpl. now rewrite app_nil_r.
Qed.

Lemma updateRoute_without_destination d route actionName actionClb w :
  l3.OutgoingInterface route <> "" ->
  l3.DstNetwork route = "" ->
  runs_to (route.updateRoute d route actionName actionClb) w
          (Some ErrRouteWithoutDestination) [].
Proof.
  intros Hi Hd. unfold route.updateRoute.
  apply String.eqb_neq in Hi. rewrite Hi, Hd. simpl.
  unfold runs_to, bind; simpl. now rewrite app_nil_r.
Qed.

Lemma updateRoute_link_with_gw d route actionName actionClb w :
  l3.OutgoingInterface route <> "" ->
  l3.DstNetwork route <> "" ->
  l3.Scope route = l3.StaticRoute_LINK ->
  l3.GwAddr route <> "" ->
  runs_to (route.updateRoute d route actionName actionClb) w
          (Some ErrRouteLinkWithGw) [].
Proof.
  intros Hi Hd Hs Hg. unfold route.updateRoute.
  apply String.eqb_neq in Hi, Hd, Hg. rewrite Hi, Hd, Hs, Hg. simpl.
  unfold runs_to, bind; simpl. now rewrite app_nil_r.
Qed.

(** [Add] and [Modify] return what [updateRoute] returns, beside nil
    metadata. *)
Lemma Add_runs_to d key route w e cs :
  runs_to (route.updateRoute d route "add" (call_AddStaticRoute (route.l3Handler d))) w e cs ->
  runs_to (route.Add d key route) w (None, e) cs.
Proof.
  unfold runs_to, route.Add, bind, ret.
  destruct (route.updateRoute _ _ _ _ w) as [e' w']; simpl.
  intros (-> & Hc & Hn). auto.
Qed.

Lemma Modify_runs_to d key oldRoute newRoute md w e cs :
  runs_to (route.updateRoute d newRoute "modify"
             (call_ReplaceStaticRoute (route.l3Handler d))) w e cs ->
  runs_to (route.Modify d key oldRoute newRoute md) w (None, e) cs.
Proof.
  unfold runs_to, route.Modify, bind, ret.
  destruct (route.updateRoute _ _ _ _ w) as [e' w']; simpl.
  intros (-> & Hc & Hn). auto.
Qed.

(** C2.  For a route value without outgoing interface, [Add], [Delete] and
    [Modify] (of any old value into this one) return
    [ErrRouteWithoutInterface], which is terminal, and make no resource
    call: no interface-index lookup, no namespace switch, no Netlink
    operation. *)
Theorem missing_interface_is_terminal_without_calls
    (d : route.RouteDescriptor) (key : string) (route oldRoute : l3.StaticRoute)
    (metadata : Metadata) (w : World) :
  l3.OutgoingInterface route = "" ->
  runs_to (route.Add d key route) w (None, Some ErrRouteWithoutInterface) []
  /\ runs_to (route.Delete d key route metadata) w (Some ErrRouteWithoutInterface) []
  /\ runs_to (route.Modify d key oldRoute route metadata) w
             (None, Some ErrRouteWithoutInterface) []
  /\ route.IsRetriableFailure d (Some ErrRouteWithoutInterface) = false.
Proof.
  intros H. split; [|split; [|split]].
  - apply Add_runs_to. now apply updateRoute_without_interface.
  - unfold route.Delete. now apply updateRoute_without_interface.
  - apply Modify_runs_to. now apply updateRoute_without_interface.
  - reflexivity.
Qed.

(** C3, as amended.  For a route value with an outgoing interface and a
    destination, link-local scope and a non-empty gateway, [Add] and
    [Modify] return [ErrRouteLinkWithGw], which is terminal, and make no
    resource call. *)
Theorem link_local_with_gateway_is_terminal
    (d : route.RouteDescriptor) (key : string) (route oldRoute : l3.StaticRoute)
    (metadata : Metadata) (w : World) :
  l3.OutgoingInterface route <> "" ->
  l3.DstNetwork route <> "" ->
  l3.Scope route = l3.StaticRoute_LINK ->
  l3.GwAddr route <> "" ->
  runs_to (route.Add d key route) w (None, Some ErrRouteLinkWithGw) []
  /\ runs_to (route.Modify d key oldRoute route metadata) w
             (None, Some ErrRouteLinkWithGw) []
  /\ route.IsRetriableFailure d (Some ErrRouteLinkWithGw) = false.
Proof.
  intros Hi Hd Hs Hg. split; [|split].
  - apply Add_runs_to. now apply updateRoute_link_with_gw.
  - apply Modify_runs_to. now apply updateRoute_link_with_gw.
  - reflexivity.
Qed.

(** [Add] on a route that passes the three presence checks: the interface
    index is consulted, and the parse checks follow in a fixed order. *)
Lemma Add_after_presence_checks d key route w :
  passes_presence_checks route ->
  match LookupByName (route.ifPlugin d) (l3.OutgoingInterface route) with
  | (Some m, true) =>
      match net_ParseCIDR (l3.DstNetwork route) with
      | None =>
          runs_to (route.Add d key route) w (None, Some ErrRouteWithInvalidDst)
                  [Call_LookupByName (l3.OutgoingInterface route)]
      | Some _ =>
          match (if l3.GwAddr route =? "" then Some [] else net_ParseIP (l3.GwAddr route)) with
          | None =>
              runs_to (route.Add d key route) w (None, Some ErrRouteWithInvalidGw)
                      [Call_LookupByName (l3.OutgoingInterface route)]
          | Some _ =>
              match route.rtScopeFromNBToNetlink (l3.Scope route) with
              | inr e =>
                  runs_to (route.Add d key route) w (None, Some e)
                          [Call_LookupByName (l3.OutgoingInterface route)]
              | inl _ =>
                  (exists cs,
                     calls (snd (route.Add d key route w))
                     = calls w ++ Call_LookupByName (l3.OutgoingInterface route)
                               :: Call_SwitchToNamespace (Namespace m) :: cs)
                  /\ (snd (fst (route.Add d key route w)) = None
                      \/ exists msg, snd (fst (route.Add d key route w)) = Some (Errorf msg))
              end
          end
      end
  | _ =>
      runs_to (route.Add d key route) w (None, Some (lookup_error route))
              [Call_LookupByName (l3.OutgoingInterface route)]
  end.
Proof.
  intros (Hi & Hd & Hl).
  assert (Hl' : l3.StaticRoute_Scope_eqb (l3.Scope route) l3.StaticRoute_LINK
                && negb (l3.GwAddr route =? "") = false).
  { destruct (_ && _) eqn:E; [|reflexivity]. apply link_with_gw_test in E. tauto. }
  apply String.eqb_neq in Hi, Hd.
  unfold route.Add, route.updateRoute. rewrite Hi, Hd, Hl'.
  unfold call_LookupByName, bind, record_call, ret; simpl.
  destruct (LookupByName _ _) as [[m|] [|]]; simpl;
    try (unfold runs_to; simpl; auto).
  destruct (net_ParseCIDR _) as [[ip dstNet]|]; simpl;
    [|unfold runs_to; simpl; auto].
  destruct (if l3.GwAddr route =? "" then _ else _) as [gw|]; simpl;
    [|unfold runs_to; simpl; auto].
  destruct (route.rtScopeFromNBToNetlink _) as [scope|e]; simpl;
    [|unfold runs_to; simpl; auto].
  unfold call_SwitchToNamespace, bind, get_netns, record_call, set_netns, ret; simpl.
  destruct (SwitchToNamespace _ _) as [e|]; simpl.
  - split; [exists []|right; eexists; reflexivity].
    now rewrite <- app_assoc.
  - unfold call_AddStaticRoute, bind, get_netns, record_call, ret; simpl.
    destruct (AddStaticRoute _ _ _) as [e|]; simpl.
    + split; [eexists|right; eexists; reflexivity].
      rewrite <- !app_assoc. reflexivity.
    + split; [eexists|now left].
      rewrite <- !app_assoc. reflexivity.
Qed.

(** C1, as amended.  [Add] checks a route value in a fixed order: the
    outgoing interface is present, the destination is present, a link-local
    route has no gateway; up to here no collaborator is called.  It then
    looks the outgoing interface up in the interface index, and a failed
    lookup yields an error that is not one of the terminal ones.  After a
    successful lookup it checks that the destination network parses, that
    the gateway address (if any) parses, and that the scope is defined; a
    failure of these returns the terminal error of the first failing check
    and no namespace switch or Netlink operation has been made.  Only a
    route value that passes all checks leads to a namespace switch.  The
    terminal error returned depends on the route value and on the answer of
    the interface lookup only. *)
Theorem Add_validation_order
    (d : route.RouteDescriptor) (key : string) (route : l3.StaticRoute) (w : World) :
  (l3.OutgoingInterface route = "" ->
     runs_to (route.Add d key route) w (None, Some ErrRouteWithoutInterface) [])
  /\ (l3.OutgoingInterface route <> "" -> l3.DstNetwork route = "" ->
     runs_to (route.Add d key route) w (None, Some ErrRouteWithoutDestination) [])
  /\ (l3.OutgoingInterface route <> "" -> l3.DstNetwork route <> "" ->
      l3.Scope route = l3.StaticRoute_LINK -> l3.GwAddr route <> "" ->
     runs_to (route.Add d key route) w (None, Some ErrRouteLinkWithGw) [])
  /\ (passes_presence_checks route ->
      (forall m, LookupByName (route.ifPlugin d) (l3.OutgoingInterface route)
                 <> (Some m, true)) ->
     runs_to (route.Add d key route) w (None, Some (lookup_error route))
             [Call_LookupByName (l3.OutgoingInterface route)]
     /\ route.IsRetriableFailure d (Some (lookup_error route)) = true)
  /\ (forall m,
      passes_presence_checks route ->
      LookupByName (route.ifPlugin d) (l3.OutgoingInterface route) = (Some m, true) ->
      (net_ParseCIDR (l3.DstNetwork route) = None ->
         runs_to (route.Add d key route) w (None, Some ErrRouteWithInvalidDst)
                 [Call_LookupByName (l3.OutgoingInterface route)])
      /\ (net_ParseCIDR (l3.DstNetwork route) <> None ->
          l3.GwAddr route <> "" -> net_ParseIP (l3.GwAddr route) = None ->
         runs_to (route.Add d key route) w (None, Some ErrRouteWithInvalidGw)
                 [Call_LookupByName (l3.OutgoingInterface route)])
      /\ (net_ParseCIDR (l3.DstNetwork route) <> None ->
          (l3.GwAddr route = "" \/ net_ParseIP (l3.GwAddr route) <> None) ->
          l3.Scope route = l3.StaticRoute_UNDEFINED ->
         runs_to (route.Add d key route) w (None, Some ErrRouteWithUndefinedScope)
                 [Call_LookupByName (l3.OutgoingInterface route)])
      /\ (net_ParseCIDR (l3.DstNetwork route) <> None ->
          (l3.GwAddr route = "" \/ net_ParseIP (l3.GwAddr route) <> None) ->
          l3.Scope route <> l3.StaticRoute_UNDEFINED ->
         exists cs,
           calls (snd (route.Add d key route w))
           = calls w ++ Call_LookupByName (l3.OutgoingInterface route)
                     :: Call_SwitchToNamespace (Namespace m) :: cs))
  /\ (forall d' w' e,
      LookupByName (route.ifPlugin d') (l3.OutgoingInterface route)
      = LookupByName (route.ifPlugin d) (l3.OutgoingInterface route) ->
      snd (fst (route.Add d key route w)) = Some e ->
      route.IsRetriableFailure d (Some e) = false ->
      snd (fst (route.Add d' key route w')) = Some e).
Proof.
  split; [|split; [|split; [|split; [|split]]]].
  - intros H. apply Add_runs_to. now apply updateRoute_without_interface.
  - intros Hi Hd. apply Add_runs_to. now apply updateRoute_without_destination.
  - intros Hi Hd Hs Hg. apply Add_runs_to. now apply updateRoute_link_with_gw.
  - intros Hp Hl. split; [|reflexivity].
    pose proof (Add_after_presence_checks d key route w Hp) as H.
    destruct (LookupByName _ _) as [[m|] [|]]; try exact H.
    now destruct (Hl m).
  - intros m Hp Hl.
    pose proof (Add_after_presence_checks d key route w Hp) as H. rewrite Hl in H.
    split; [|split; [|split]].
    + intros Hc. now rewrite Hc in H.
    + intros Hc Hg Hgw. destruct (net_ParseCIDR _); [|congruence].
      apply String.eqb_neq in Hg. now rewrite Hg, Hgw in H.
    + intros Hc Hg Hs. destruct (net_ParseCIDR _); [|congruence].
      rewrite Hs in H.
      destruct (String.eqb_spec (l3.GwAddr route) ""); [exact H|].
      destruct (net_ParseIP _); [exact H|]. destruct Hg; congruence.
    + intros Hc Hg Hs. destruct (net_ParseCIDR _); [|congruence].
      assert (Hsc : exists s, route.rtScopeFromNBToNetlink (l3.Scope route) = inl s)
        by (destruct (l3.Scope route); simpl; eauto; congruence).
      destruct Hsc as (s & Hsc). rewrite Hsc in H.
      destruct (String.eqb_spec (l3.GwAddr route) ""); [apply H|].
      destruct (net_ParseIP _); [apply H|]. destruct Hg; congruence.
  - intros d' w' e Hl He Hr.
    destruct (presence_checks_cases route) as [H|[(Hi & Hd)|[(Hi & Hd & Hs & Hg)|Hp]]].
    + pose proof (Add_runs_to d key _ w _ _ (updateRoute_without_interface d _ _ _ w H)) as (E & _).
      pose proof (Add_runs_to d' key _ w' _ _ (updateRoute_without_interface d' _ _ _ w' H)) as (E' & _).
      rewrite E in He. rewrite E'. exact He.
    + pose proof (Add_runs_to d key _ w _ _ (updateRoute_without_destination d _ _ _ w Hi Hd)) as (E & _).
      pose proof (Add_runs_to d' key _ w' _ _ (updateRoute_without_destination d' _ _ _ w' Hi Hd)) as (E' & _).
      rewrite E in He. rewrite E'. exact He.
    + pose proof (Add_runs_to d key _ w _ _ (updateRoute_link_with_gw d _ _ _ w Hi Hd Hs Hg)) as (E & _).
      pose proof (Add_runs_to d' key _ w' _ _ (updateRoute_link_with_gw d' _ _ _ w' Hi Hd Hs Hg)) as (E' & _).
      rewrite E in He. rewrite E'. exact He.
    + pose proof (Add_after_presence_checks d key route w Hp) as H.
      pose proof (Add_after_presence_checks d' key route w' Hp) as H'.
      rewrite Hl in H'.
      destruct (LookupByName (route.ifPlugin d) _) as [[m|] [|]];
        try (destruct H as (E & _); rewrite E in He; simpl in He;
             injection He as <-; discriminate Hr).
      destruct (net_ParseCIDR _);
        [|destruct H as (E & _), H' as (E' & _); rewrite E in He; rewrite E'; exact He].
      destruct (if l3.GwAddr route =? "" then _ else _);
        [|destruct H as (E & _), H' as (E' & _); rewrite E in He; rewrite E'; exact He].
      destruct (route.rtScopeFromNBToNetlink _);
        [|destruct H as (E & _), H' as (E' & _); rewrite E in He; rewrite E'; exact He].
      destruct H as (_ & [E|(msg & E)]); rewrite E in He; [discriminate He|].
      injection He as <-. discriminate Hr.
Qed.

End Validation.

(* ===================================================================== *)
(** ** The punt-to-host descriptor                                        *)
(* ===================================================================== *)

Section PuntToHost.

(** C9.  [Delete] of a punt without socket path returns nil and calls
    nothing (the unsupported deletion is a no-op that only logs a warning);
    with a socket path it makes one deregistration call and returns that
    call's error, if any. *)
Theorem Delete_without_socket_is_noop
    (d : punt_to_host.PuntToHostDescriptor) (key : string) (p : punt.ToHost)
    (metadata : Metadata) (w : World) :
  (punt.SocketPath p = "" ->
     runs_to (punt_to_host.Delete d key p metadata) w None []
     /\ logs (snd (punt_to_host.Delete d key p metadata w))
        = logs w ++ [(WarnLevel, "Punt delete is not supported by the VPP")])
  /\ (punt.SocketPath p <> "" ->
     runs_to (punt_to_host.Delete d key p metadata) w
             (DeregisterPuntSocket (punt_to_host.puntHandler d) p)
             [Call_DeregisterPuntSocket p]).
Proof.
  unfold punt_to_host.Delete. split; intros H.
  - rewrite H. simpl. unfold runs_to, bind; simpl.
    now rewrite app_nil_r.
  - apply String.eqb_neq in H. rewrite H.
    unfold call_DeregisterPuntSocket, runs_to, bind, record_call, ret; simpl.
    destruct (DeregisterPuntSocket _ p); simpl; auto.
Qed.

(** C8, as amended.  Whatever the correlate argument and whatever exists in
    VPP, [Dump] of the punt-to-host descriptor returns the empty list and
    the nil error; it calls no collaborator and logs that the dump is not
    supported. *)
Theorem punt_Dump_returns_nothing
    (d : punt_to_host.PuntToHostDescriptor)
    (correlate : list punt_to_host.PuntToHostKVWithMetadata) (w : World) :
  runs_to (punt_to_host.Dump d correlate) w ([], None) []
  /\ logs (snd (punt_to_host.Dump d correlate w))
     = logs w ++ [(WarnLevel, "Dump punt/socket register is not supported by the VPP")].
Proof.
  unfold punt_to_host.Dump, runs_to, bind, log_Warn, ret; simpl.
  rewrite app_nil_r. repeat split.
Qed.

End PuntToHost.

(* ===================================================================== *)
(** ** The slices of the dump workers                                     *)
(* ===================================================================== *)

Section Slices.

(** The [j]-th index the loop visits is [i + j * cnt], as long as it is
    below [len] and the fuel lasts. *)
Lemma indices_from_In (cnt len : nat) :
  1 <= cnt ->
  forall fuel i k,
    In k (route.dumpRoutes_indices_from fuel i cnt len)
    <-> exists j, j < fuel /\ k = i + j * cnt /\ k < len.
Proof.
  intros Hc. induction fuel as [|fuel IH]; intros i k; simpl.
  - split; [intros []|intros (j & Hj & _); lia].
  - destruct (Nat.ltb_spec i len) as [Hlt|Hge]; simpl.
    + rewrite IH. split.
      * intros [<-|(j & Hj & -> & Hk)].
        -- exists 0. lia.
        -- exists (S j). lia.
      * intros ([|j] & Hj & -> & Hk).
        -- left. lia.
        -- right. exists j. lia.
    + split; [intros []|intros (j & _ & -> & Hk); lia].
Qed.

(** The loop ends by its own test within [len] iterations: more fuel
    changes nothing. *)
Lemma indices_fuel_enough (cnt len : nat) :
  1 <= cnt ->
  forall fuel i, len - i <= fuel ->
    route.dumpRoutes_indices_from fuel i cnt len
    = route.dumpRoutes_indices_from (S fuel) i cnt len.
Proof.
  intros Hc. induction fuel as [|fuel IH]; intros i Hf.
  - simpl. destruct (Nat.ltb_spec i len); [lia|reflexivity].
  - change (route.dumpRoutes_indices_from (S (S fuel)) i cnt len)
      with (if (i <? len)%nat
            then i :: route.dumpRoutes_indices_from (S fuel) (i + cnt) cnt len
            else []).
    simpl. destruct (Nat.ltb_spec i len); [|reflexivity].
    f_equal. apply IH. lia.
Qed.

Lemma indices_from_NoDup (cnt len : nat) :
  1 <= cnt ->
  forall fuel i, NoDup (route.dumpRoutes_indices_from fuel i cnt len).
Proof.
  intros Hc. induction fuel as [|fuel IH]; intros i; simpl; [constructor|].
  destruct (i <? len)%nat; [|constructor].
  constructor; [|apply IH].
  rewrite indices_from_In by assumption. intros (j & _ & Hk & _). lia.
Qed.

(** Worker [idx] of [cnt] visits the indices below [len] that are congruent
    to [idx] modulo [cnt]. *)
Lemma indices_In (idx cnt len k : nat) :
  1 <= cnt -> idx < cnt ->
  In k (route.dumpRoutes_indices idx cnt len) <-> k < len /\ k mod cnt = idx.
Proof.
  intros Hc Hi. unfold route.dumpRoutes_indices.
  rewrite indices_from_In by assumption. split.
  - intros (j & _ & -> & Hk). split; [assumption|].
    rewrite Nat.Div0.mod_add. now apply Nat.mod_small.
  - intros (Hk & Hm). exists (k / cnt).
    pose proof (Nat.div_mod_eq k cnt) as E.
    assert (k / cnt <= k) by (apply Nat.Div0.div_le_upper_bound; nia).
    split; [lia|]. split; [|assumption]. nia.
Qed.

Lemma NoDup_flat_map {A B : Type} (f : A -> list B) (l : list A) :
  NoDup l ->
  (forall a, In a l -> NoDup (f a)) ->
  (forall a b x, In a l -> In b l -> In x (f a) -> In x (f b) -> a = b) ->
  NoDup (flat_map f l).
Proof.
  induction l as [|a l IH]; intros Hl Hf Hd; simpl; [constructor|].
  inversion Hl as [|? ? Ha Hl']; subst.
  apply NoDup_app.
  - apply Hf. now left.
  - apply IH; [assumption|intros; apply Hf; now right|].
    intros b c x Hb Hc. apply Hd; now right.
  - intros x Hx Hx'. apply in_flat_map in Hx' as (b & Hb & Hxb).
    assert (a = b) by (apply (Hd a b x); simpl; auto).
    subst b. contradiction.
Qed.

(** C6.  For [N >= 1] workers over a unit list of length [L], the slices
    [i, i+N, i+2N, ...] of the workers [i < N] are pairwise disjoint, every
    index below [L] lies in one of them, and their concatenation lists the
    indices [0 .. L-1] without duplicates; the loop that enumerates a slice
    ends within [L] iterations. *)
Theorem dump_worker_slices_partition (N L : nat) :
  1 <= N ->
  (forall i j k, i < N -> j < N ->
     In k (route.dumpRoutes_indices i N L) ->
     In k (route.dumpRoutes_indices j N L) -> i = j)
  /\ (forall k, k < L <-> exists i, i < N /\ In k (route.dumpRoutes_indices i N L))
  /\ NoDup (flat_map (fun i => route.dumpRoutes_indices i N L) (seq 0 N))
  /\ Permutation (flat_map (fun i => route.dumpRoutes_indices i N L) (seq 0 N)) (seq 0 L)
  /\ (forall i fuel, L <= fuel ->
        route.dumpRoutes_indices_from fuel i N L = route.dumpRoutes_indices i N L).
Proof.
  intros HN.
  assert (Hdisj : forall i j k, i < N -> j < N ->
            In k (route.dumpRoutes_indices i N L) ->
            In k (route.dumpRoutes_indices j N L) -> i = j).
  { intros i j k Hi Hj Hki Hkj.
    apply indices_In in Hki; [|assumption..]. apply indices_In in Hkj; [|assumption..].
    lia. }
  assert (Hcover : forall k, k < L <->
            exists i, i < N /\ In k (route.dumpRoutes_indices i N L)).
  { intros k. split.
    - intros Hk. exists (k mod N).
      assert (k mod N < N) by (apply Nat.mod_upper_bound; lia).
      split; [assumption|]. apply indices_In; auto.
    - intros (i & Hi & Hk). apply indices_In in Hk; [lia|assumption..]. }
  assert (Hnd : NoDup (flat_map (fun i => route.dumpRoutes_indices i N L) (seq 0 N))).
  { apply NoDup_flat_map.
    - apply seq_NoDup.
    - intros i _. now apply indices_from_NoDup.
    - intros i j k Hi Hj. apply in_seq in Hi, Hj. apply Hdisj; lia. }
  split; [exact Hdisj|]. split; [exact Hcover|]. split; [exact Hnd|]. split.
  - apply NoDup_Permutation; [exact Hnd|apply seq_NoDup|].
    intros k. rewrite in_flat_map, in_seq. split.
    + intros (i & Hi & Hk). apply in_seq in Hi.
      assert (k < L) by (apply Hcover; exists i; split; [lia|assumption]). lia.
    + intros (_ & Hk). apply Hcover in Hk as (i & Hi & Hk).
      exists i. split; [apply in_seq; lia|assumption].
  - intros i fuel Hf. unfold route.dumpRoutes_indices.
    induction Hf as [|fuel Hf IH]; [reflexivity|].
    rewrite <- IH. symmetry. apply indices_fuel_enough; [assumption|lia].
Qed.

End Slices.

(* ===================================================================== *)
(** ** The collecting loop of [Dump]                                      *)
(* ===================================================================== *)

Section DumpCollect.
Context {lib : GoLib}.

Lemma collect_no_error (results : list route.routeDump) :
  forall dump,
    (forall rd, In rd results -> route.err rd = None) ->
    route.collect dump results = (dump ++ flat_map route.routes results, None).
Proof.
  induction results as [|rd results IH]; intros dump H; simpl.
  - now rewrite app_nil_r.
  - rewrite (H rd) by now left.
    rewrite IH by (intros; apply H; now right).
    now rewrite app_assoc.
Qed.

Lemma collect_first_error (pre : list route.routeDump) :
  forall dump rd post e,
    (forall x, In x pre -> route.err x = None) ->
    route.err rd = Some e ->
    route.collect dump (pre ++ rd :: post) = (dump ++ flat_map route.routes pre, Some e).
Proof.
  induction pre as [|x pre IH]; intros dump rd post e Hpre He; simpl.
  - rewrite He. now rewrite app_nil_r.
  - rewrite (Hpre x) by now left.
    rewrite (IH _ rd post e) by (auto; intros; apply Hpre; now right).
    now rewrite app_assoc.
Qed.

Lemma flat_map_map {A B C : Type} (f : A -> B) (g : B -> list C) (l : list A) :
  flat_map g (map f l) = flat_map (fun a => g (f a)) l.
Proof.
  induction l as [|a l IH]; simpl; [reflexivity|]. now rewrite IH.
Qed.

(** C7, as amended.  [Dump] receives the workers' results in the order they
    arrive.  When no result carries an error it receives all of them and
    returns the concatenation of their routes, so every worker's routes are
    in the dump.  At the first result that carries an error it returns at
    once: the error, together with the routes of the results received
    before it; the routes of the failing result itself and the results that
    have not yet been received are not part of what it returns. *)
Theorem Dump_collects_until_first_error
    (d : route.RouteDescriptor) (arrival : list nat)
    (correlate : list route.RouteKVWithMetadata) :
  (0 <= route.goRoutinesCnt d (ListAllInterfaces (route.ifPlugin d)))%Z ->
  ((forall idx, In idx arrival -> route.err (worker_result d idx) = None) ->
     route.Dump d arrival correlate
     = Some (flat_map (fun idx => route.routes (worker_result d idx)) arrival, None)
     /\ (route.arrival_order d arrival ->
         forall idx kv,
           (Z.of_nat idx < route.goRoutinesCnt d (ListAllInterfaces (route.ifPlugin d)))%Z ->
           In kv (route.routes (worker_result d idx)) ->
           exists dump, route.Dump d arrival correlate = Some (dump, None) /\ In kv dump))
  /\ (forall pre idx post e,
        arrival = pre ++ idx :: post ->
        (forall i, In i pre -> route.err (worker_result d i) = None) ->
        route.err (worker_result d idx) = Some e ->
        route.Dump d arrival correlate
        = Some (flat_map (fun i => route.routes (worker_result d i)) pre, Some e)).
Proof.
  intros Hcnt. unfold route.Dump.
  destruct (Z.ltb_spec (route.goRoutinesCnt d (ListAllInterfaces (route.ifPlugin d))) 0);
    [lia|].
  fold (worker_result d). split.
  - intros Hok.
    assert (E : route.collect [] (map (worker_result d) arrival)
                = (flat_map (fun idx => route.routes (worker_result d idx)) arrival, None)).
    { rewrite collect_no_error.
      - simpl. now rewrite flat_map_map.
      - intros rd Hin. apply in_map_iff in Hin as (idx & <- & Hin). now apply Hok. }
    change (fun idx => route.dumpRoutes d (ListAllInterfaces (route.ifPlugin d)) idx
              (Z.to_nat (route.goRoutinesCnt d (ListAllInterfaces (route.ifPlugin d)))))
      with (worker_result d).
    rewrite E. split; [reflexivity|].
    intros Hperm idx kv Hidx Hkv. eexists. split; [reflexivity|].
    apply in_flat_map. exists idx. split; [|assumption].
    apply (Permutation_in idx (Permutation_sym Hperm)).
    apply in_seq. lia.
  - intros pre idx post e -> Hpre He.
    change (fun idx => route.dumpRoutes d (ListAllInterfaces (route.ifPlugin d)) idx
              (Z.to_nat (route.goRoutinesCnt d (ListAllInterfaces (route.ifPlugin d)))))
      with (worker_result d).
    rewrite map_app. simpl.
    rewrite (collect_first_error _ _ _ _ e).
    + simpl. now rewrite flat_map_map.
    + intros x Hin. apply in_map_iff in Hin as (i & <- & Hin). now apply Hpre.
    + assumption.
Qed.

End DumpCollect.

(* ===================================================================== *)
(** ** Comparison of routes                                               *)
(* ===================================================================== *)

Section Comparison.
Context {lib : GoLib}.

Lemma bytesEqual_refl (a : list Z) : net.bytesEqual a a = true.
Proof.
  induction a as [|x a IH]; simpl; [reflexivity|].
  now rewrite Z.eqb_refl, IH.
Qed.

Lemma Equal_refl (ip : net.IP) : net.Equal ip ip = true.
Proof.
  unfold net.Equal. rewrite Nat.eqb_refl. apply bytesEqual_refl.
Qed.

Lemma Scope_eqb_refl (s : l3.StaticRoute_Scope) : l3.StaticRoute_Scope_eqb s s = true.
Proof. destruct s; reflexivity. Qed.

(** When one of the two addresses does not parse, [equalAddrs] compares the
    lower-cased strings; likewise [equalNetworks]. *)
Lemma equalAddrs_fallback (addr1 addr2 : string) :
  net_ParseIP addr1 = None \/ net_ParseIP addr2 = None ->
  route.equalAddrs addr1 addr2 = (strings_ToLower addr1 =? strings_ToLower addr2).
Proof.
  unfold route.equalAddrs. intros [H|H]; rewrite H; [reflexivity|].
  now destruct (net_ParseIP addr1).
Qed.

Lemma equalNetworks_fallback (net1 net2 : string) :
  net_ParseCIDR net1 = None \/ net_ParseCIDR net2 = None ->
  route.equalNetworks net1 net2 = (strings_ToLower net1 =? strings_ToLower net2).
Proof.
  unfold route.equalNetworks. intros [H|H]; rewrite H; [reflexivity|].
  now destruct (net_ParseCIDR net1) as [[? ?]|].
Qed.

Lemma equalAddrs_refl (addr : string) : route.equalAddrs addr addr = true.
Proof.
  unfold route.equalAddrs. destruct (net_ParseIP addr).
  - apply Equal_refl.
  - apply String.eqb_refl.
Qed.

Lemma equalNetworks_refl (n : string) : route.equalNetworks n n = true.
Proof.
  unfold route.equalNetworks. destruct (net_ParseCIDR n) as [[ip ipnet]|].
  - now rewrite Equal_refl, bytesEqual_refl.
  - apply String.eqb_refl.
Qed.

Section WithLaws.
Context {laws : LibraryLaws lib}.

Lemma equalAddrs_same_letters (a b : string) :
  same_letters a b -> route.equalAddrs a b = true.
Proof.
  intros H. unfold route.equalAddrs.
  rewrite (ParseIP_ToLower a b H). destruct (net_ParseIP b).
  - apply Equal_refl.
  - rewrite H. apply String.eqb_refl.
Qed.

Lemma equalNetworks_same_letters (a b : string) :
  same_letters a b -> route.equalNetworks a b = true.
Proof.
  intros H. unfold route.equalNetworks.
  rewrite (ParseCIDR_ToLower a b H). destruct (net_ParseCIDR b) as [[ip n]|].
  - now rewrite Equal_refl, bytesEqual_refl.
  - rewrite H. apply String.eqb_refl.
Qed.

Lemma equalNetworks_same_network (a b : string) :
  same_network a b -> route.equalNetworks a b = true.
Proof.
  intros (ia & ib & n & Ha & Hb). unfold route.equalNetworks.
  rewrite Ha, Hb. now rewrite Equal_refl, bytesEqual_refl.
Qed.

Lemma same_letters_empty (a b : string) :
  same_letters a b -> (a =? "") = (b =? "").
Proof.
  unfold same_letters. intros H.
  destruct (String.eqb_spec a ""), (String.eqb_spec b ""); try reflexivity; subst.
  - symmetry in H. apply ToLower_empty in H. contradiction.
  - apply ToLower_empty in H. contradiction.
Qed.

(** The gateway addresses [getGwAddr] chooses for two routes are equal
    addresses when the routes' gateway strings differ in case only and the
    family test agrees on their destinations. *)
Lemma getGwAddr_equal (v1 v2 : l3.StaticRoute) :
  same_letters (l3.GwAddr v1) (l3.GwAddr v2) ->
  fst (addrs_IsIPv6 (l3.DstNetwork v1)) = fst (addrs_IsIPv6 (l3.DstNetwork v2)) ->
  route.equalAddrs (route.getGwAddr v1) (route.getGwAddr v2) = true.
Proof.
  intros Hg Hf. unfold route.getGwAddr.
  rewrite (same_letters_empty _ _ Hg), Hf.
  destruct (l3.GwAddr v2 =? "").
  - apply equalAddrs_refl.
  - now apply equalAddrs_same_letters.
Qed.

(** C5.  Two route values that differ only in the letter case of their
    address strings, or in the CIDR notation of one and the same
    destination network, are equivalent, whatever the key.  When an address
    (a network) does not parse, the comparison of addresses (of networks)
    is the equality of the lower-cased strings. *)
Theorem EquivalentRoutes_modulo_representation
    (d : route.RouteDescriptor) (key : string) (v1 v2 : l3.StaticRoute) :
  l3.OutgoingInterface v1 = l3.OutgoingInterface v2 ->
  l3.Scope v1 = l3.Scope v2 ->
  l3.Metric v1 = l3.Metric v2 ->
  same_letters (l3.DstNetwork v1) (l3.DstNetwork v2)
  \/ same_network (l3.DstNetwork v1) (l3.DstNetwork v2) ->
  same_letters (l3.GwAddr v1) (l3.GwAddr v2) ->
  route.EquivalentRoutes d key v1 v2 = true
  /\ (forall addr1 addr2,
        net_ParseIP addr1 = None \/ net_ParseIP addr2 = None ->
        route.equalAddrs addr1 addr2 = (strings_ToLower addr1 =? strings_ToLower addr2))
  /\ (forall net1 net2,
        net_ParseCIDR net1 = None \/ net_ParseCIDR net2 = None ->
        route.equalNetworks net1 net2 = (strings_ToLower net1 =? strings_ToLower net2)).
Proof.
  intros Hi Hs Hm Hd Hg.
  split; [|split; [exact equalAddrs_fallback|exact equalNetworks_fallback]].
  unfold route.EquivalentRoutes.
  rewrite Hi, Hs, Hm, String.eqb_refl, Scope_eqb_refl, Z.eqb_refl. simpl.
  destruct Hd as [Hd|Hd].
  - rewrite (equalNetworks_same_letters _ _ Hd). simpl.
    apply getGwAddr_equal; [assumption|]. now apply IsIPv6_ToLower.
  - rewrite (equalNetworks_same_network _ _ Hd). simpl.
    apply getGwAddr_equal; [assumption|].
    destruct Hd as (ia & ib & n & Ha & Hb). exact (IsIPv6_network _ _ _ _ _ Ha Hb).
Qed.

Lemma EquivalentRoutes_with_default (d : route.RouteDescriptor) (key : string)
    (r : l3.StaticRoute) :
  l3.GwAddr r = "" ->
  route.EquivalentRoutes d key r (with_GwAddr r (route.getGwAddr r)) = true.
Proof.
  intros Hg. unfold route.EquivalentRoutes, with_GwAddr; simpl.
  rewrite String.eqb_refl, Scope_eqb_refl, Z.eqb_refl, equalNetworks_refl. simpl.
  unfold route.getGwAddr at 2; simpl.
  set (gw := route.getGwAddr r).
  assert (Hne : (gw =? "") = false).
  { unfold gw, route.getGwAddr. rewrite Hg. simpl.
    now destruct (fst (addrs_IsIPv6 _)). }
  rewrite Hne. apply equalAddrs_refl.
Qed.

Lemma any_address_unspecified (r : l3.StaticRoute) :
  l3.GwAddr r = "" ->
  exists ip, net_ParseIP (route.getGwAddr r) = Some ip /\ net.IsUnspecified ip = true.
Proof.
  intros Hg. unfold route.getGwAddr. rewrite Hg. simpl.
  destruct (fst (addrs_IsIPv6 _)).
  - exists net.IPv6unspecified. split; [apply ParseIP_ipv6AddrAny|reflexivity].
  - exists net.IPv4zero. split; [apply ParseIP_ipv4AddrAny|reflexivity].
Qed.

(** A gateway that parses to a specified address is a dependency. *)
Lemma Dependencies_specified_gateway (d : route.RouteDescriptor) (key : string)
    (r : l3.StaticRoute) (ip : net.IP) :
  net_ParseIP (route.getGwAddr r) = Some ip ->
  net.IsUnspecified ip = false ->
  map Label (route.Dependencies d key r)
  = (if negb (l3.OutgoingInterface r =? "") then [route.routeOutInterfaceDep] else [])
    ++ [route.routeGwReachabilityDep].
Proof.
  intros Hip Hun. unfold route.Dependencies. rewrite Hip, Hun. simpl.
  now destruct (negb _).
Qed.

(** The family test is put to the destination string as the route has
    it: on a network, of either family, it answers false, and the gateway
    chosen is [0.0.0.0]. *)
Lemma getGwAddr_of_network {fam : FamilyLaws lib} (r : l3.StaticRoute)
    (x : net.IP * net.IPNet) :
  l3.GwAddr r = "" ->
  net_ParseCIDR (l3.DstNetwork r) = Some x ->
  route.getGwAddr r = "0.0.0.0".
Proof.
  intros Hg Hx. unfold route.getGwAddr. rewrite Hg. simpl.
  now rewrite (IsIPv6_no_address _ (network_is_no_address _ _ Hx)).
Qed.

Lemma getGwAddr_given (r : l3.StaticRoute) (gw : string) :
  gw <> "" -> route.getGwAddr (with_GwAddr r gw) = gw.
Proof.
  intros Hne. unfold route.getGwAddr, with_GwAddr; simpl.
  now destruct (String.eqb_spec gw "").
Qed.

Lemma EquivalentRoutes_same_but_gateway (d : route.RouteDescriptor) (key : string)
    (r : l3.StaticRoute) (gw : string) :
  route.EquivalentRoutes d key r (with_GwAddr r gw)
  = route.equalAddrs (route.getGwAddr r) (route.getGwAddr (with_GwAddr r gw))
  /\ route.EquivalentRoutes d key (with_GwAddr r gw) r
     = route.equalAddrs (route.getGwAddr (with_GwAddr r gw)) (route.getGwAddr r).
Proof.
  unfold route.EquivalentRoutes, with_GwAddr; simpl.
  now rewrite String.eqb_refl, Scope_eqb_refl, Z.eqb_refl, equalNetworks_refl.
Qed.

(** C10.  The gateway chosen for a route without one does not follow the
    family of its destination network.  [getGwAddr] puts the family test
    to the destination string, which for a network in CIDR notation is no
    address, so the test answers false and the gateway chosen is [0.0.0.0]
    for an IPv4 and for an IPv6 network alike.  Such a route is equivalent
    to itself with gateway [0.0.0.0], and is not equivalent to itself with
    gateway [::], in either order of the two values.  Its dependencies
    hold no gateway-reachability dependency, only the one on the outgoing
    interface (if the route names one), and so do those of the route with
    either "any" address written out. *)
Theorem absent_gateway_of_network
    {fam : FamilyLaws lib}
    (d : route.RouteDescriptor) (key : string) (r : l3.StaticRoute)
    (x : net.IP * net.IPNet) :
  l3.GwAddr r = "" ->
  net_ParseCIDR (l3.DstNetwork r) = Some x ->
  route.getGwAddr r = "0.0.0.0"
  /\ route.EquivalentRoutes d key r (with_GwAddr r "0.0.0.0") = true
  /\ route.EquivalentRoutes d key (with_GwAddr r "0.0.0.0") r = true
  /\ route.EquivalentRoutes d key r (with_GwAddr r "::") = false
  /\ route.EquivalentRoutes d key (with_GwAddr r "::") r = false
  /\ route.Dependencies d key r
     = (if negb (l3.OutgoingInterface r =? "") then
          [ {| Label := route.routeOutInterfaceDep;
               Key := ifmodel_InterfaceStateKey (l3.OutgoingInterface r) true;
               AnyOf := None |} ]
        else [])
  /\ route.Dependencies d key (with_GwAddr r "0.0.0.0") = route.Dependencies d key r
  /\ route.Dependencies d key (with_GwAddr r "::") = route.Dependencies d key r.
Proof.
  intros Hg Hx.
  pose proof (getGwAddr_of_network r x Hg Hx) as Hgw.
  assert (H4 : route.getGwAddr (with_GwAddr r "0.0.0.0") = "0.0.0.0")
    by (apply getGwAddr_given; discriminate).
  assert (H6 : route.getGwAddr (with_GwAddr r "::") = "::")
    by (apply getGwAddr_given; discriminate).
  assert (E46 : route.equalAddrs "0.0.0.0" "::" = false).
  { unfold route.equalAddrs.
    change "0.0.0.0" with route.ipv4AddrAny. change "::" with route.ipv6AddrAny.
    now rewrite ParseIP_ipv4AddrAny, ParseIP_ipv6AddrAny. }
  assert (E64 : route.equalAddrs "::" "0.0.0.0" = false).
  { unfold route.equalAddrs.
    change "0.0.0.0" with route.ipv4AddrAny. change "::" with route.ipv6AddrAny.
    now rewrite ParseIP_ipv4AddrAny, ParseIP_ipv6AddrAny. }
  destruct (EquivalentRoutes_same_but_gateway d key r "0.0.0.0") as (A1 & A2).
  destruct (EquivalentRoutes_same_but_gateway d key r "::") as (B1 & B2).
  rewrite Hgw, H4 in A1, A2. rewrite Hgw, H6 in B1, B2.
  assert (D : forall r', l3.OutgoingInterface r' = l3.OutgoingInterface r ->
            route.getGwAddr r' = "0.0.0.0" \/ route.getGwAddr r' = "::" ->
            route.Dependencies d key r'
            = (if negb (l3.OutgoingInterface r =? "") then
                 [ {| Label := route.routeOutInterfaceDep;
                      Key := ifmodel_InterfaceStateKey (l3.OutgoingInterface r) true;
                      AnyOf := None |} ]
               else [])).
  { intros r' Hi Hr'. unfold route.Dependencies. rewrite Hi.
    destruct Hr' as [-> | ->].
    - change "0.0.0.0" with route.ipv4AddrAny. rewrite ParseIP_ipv4AddrAny. simpl.
      now destruct (negb _).
    - change "::" with route.ipv6AddrAny. rewrite ParseIP_ipv6AddrAny. simpl.
      now destruct (negb _). }
  split; [exact Hgw|].
  split; [rewrite A1; apply equalAddrs_refl|].
  split; [rewrite A2; apply equalAddrs_refl|].
  split; [rewrite B1; exact E46|].
  split; [rewrite B2; exact E64|].
  split; [apply D; [reflexivity|now left]|].
  split.
  - rewrite (D (with_GwAddr r "0.0.0.0")), (D r); auto.
  - rewrite (D (with_GwAddr r "::")), (D r); auto.
Qed.

End WithLaws.
End Comparison.

(* ===================================================================== *)
(** ** The reference library satisfies the laws                           *)
(* ===================================================================== *)

Section ReferenceLibrary.

Lemma RefLib_addrChar_not_slash (c : ascii) :
  RefLib.addrChar c = true -> Ascii.eqb c "/" = false.
Proof.
  destruct c as [[] [] [] [] [] [] [] []]; vm_compute; congruence.
Qed.

(** A string of address characters has no slash to split at. *)
Lemma RefLib_split_address (s : string) :
  RefLib.allChars RefLib.addrChar s = true -> RefLib.split "/" s = [s].
Proof.
  induction s as [|c s IH]; simpl; [reflexivity|].
  intros H. apply andb_true_iff in H as (Hc & Hs).
  rewrite (RefLib_addrChar_not_slash c Hc), (IH Hs). reflexivity.
Qed.

(** What parses as a network does not parse as an address. *)
Lemma RefLib_network_is_no_address (s : string) (x : net.IP * net.IPNet) :
  RefLib.ParseCIDR s = Some x -> RefLib.ParseIP s = None.
Proof.
  unfold RefLib.ParseCIDR, RefLib.ParseIP, RefLib.parseCIDR, RefLib.parseIP.
  destruct (RefLib.allChars RefLib.addrChar (RefLib.ToLower s)) eqn:E; [|reflexivity].
  rewrite (RefLib_split_address _ E). discriminate.
Qed.

Lemma RefLib_laws : LibraryLaws RefLib.lib.
Proof.
  constructor; simpl.
  - intros [|c s]; simpl; [reflexivity|discriminate].
  - intros a b H. unfold RefLib.ParseIP. now rewrite H.
  - intros a b H. unfold RefLib.ParseCIDR. now rewrite H.
  - intros a b H. unfold RefLib.IsIPv6, RefLib.ParseIP. rewrite H.
    now destruct (RefLib.parseIP _).
  - intros a b ia ib n Ha Hb. unfold RefLib.IsIPv6.
    now rewrite (RefLib_network_is_no_address _ _ Ha), (RefLib_network_is_no_address _ _ Hb).
  - reflexivity.
  - reflexivity.
Qed.

Lemma RefLib_family_laws : FamilyLaws RefLib.lib.
Proof.
  constructor; simpl.
  - intros s H. unfold RefLib.IsIPv6. now rewrite H.
  - exact RefLib_network_is_no_address.
Qed.

End ReferenceLibrary.

(* ===================================================================== *)
(** ** The descriptors on sample values                                   *)
(* ===================================================================== *)

Section Examples.
Import Samples.
#[local] Existing Instance RefLib.lib.

(** C1, counterexample.  A route with an undefined scope is invalid, yet
    [Add] first looks its interface up: with an index that lacks the
    interface it returns the lookup error, which is not terminal; with an
    index that has it, the terminal scope error.  In both runs the
    interface index has been called. *)
Lemma Add_looks_up_before_scope_check :
  route.rtScopeFromNBToNetlink
    (l3.Scope (mkRoute "eth0" l3.StaticRoute_UNDEFINED "10.0.0.0/24" ""))
  = inr ErrRouteWithUndefinedScope
  /\ route.Add d_empty "k" (mkRoute "eth0" l3.StaticRoute_UNDEFINED "10.0.0.0/24" "") world0
     = ((None, Some (Errorf "failed to obtain metadata for interface eth0")),
        {| netns := None;
           calls := [Call_LookupByName "eth0"];
           logs := [(ErrorLevel, "failed to obtain metadata for interface eth0")] |})
  /\ route.IsRetriableFailure d_empty
       (Some (Errorf "failed to obtain metadata for interface eth0")) = true
  /\ route.Add d_eth0 "k" (mkRoute "eth0" l3.StaticRoute_UNDEFINED "10.0.0.0/24" "") world0
     = ((None, Some ErrRouteWithUndefinedScope),
        {| netns := None;
           calls := [Call_LookupByName "eth0"];
           logs := [(ErrorLevel, "Linux Route defined without scope")] |}).
Proof.
  repeat split.
Qed.

(** A valid route: [Add] looks the interface up, switches to its
    namespace, makes the Netlink call there and switches back. *)
Example Add_valid_route :
  route.Add d_eth0 "k" (mkRoute "eth0" l3.StaticRoute_GLOBAL "10.0.0.0/24" "10.0.0.1") world0
  = ((None, None),
     {| netns := None;
        calls := [ Call_LookupByName "eth0";
                   Call_SwitchToNamespace None;
                   Call_AddStaticRoute {|
                     netlink.LinkIndex := 2;
                     netlink.Dst := Some {| net.IP_ := [10; 0; 0; 0]%Z;
                                            net.Mask := [255; 255; 255; 0]%Z |};
                     netlink.Gw := net.IPv4 10 0 0 1;
                     netlink.RouteScope := netlink.SCOPE_UNIVERSE;
                     netlink.Priority := 0 |};
                   Call_revertNs ];
        logs := [] |}).
Proof.
  vm_compute. reflexivity.
Qed.

(** C1, witness: with the interface known, a destination that is no
    network and a gateway that is no address are refused after the lookup,
    in this order. *)
Lemma Add_validation_order_witness :
  runs_to (route.Add d_eth0 "k" (mkRoute "eth0" l3.StaticRoute_GLOBAL "not-a-network" ""))
          world0 (None, Some ErrRouteWithInvalidDst) [Call_LookupByName "eth0"]
  /\ runs_to (route.Add d_eth0 "k" (mkRoute "eth0" l3.StaticRoute_GLOBAL "10.0.0.0/24" "gw"))
             world0 (None, Some ErrRouteWithInvalidGw) [Call_LookupByName "eth0"].
Proof.
  split.
  - refine (proj1 (proj1 (proj2 (proj2 (proj2 (proj2
             (Add_validation_order d_eth0 "k"
                (mkRoute "eth0" l3.StaticRoute_GLOBAL "not-a-network" "") world0)))))
             (ifMeta 2) _ _) _).
    + repeat split; try discriminate. intros (H & _). discriminate H.
    + reflexivity.
    + reflexivity.
  - refine (proj1 (proj2 (proj1 (proj2 (proj2 (proj2 (proj2
             (Add_validation_order d_eth0 "k"
                (mkRoute "eth0" l3.StaticRoute_GLOBAL "10.0.0.0/24" "gw") world0)))))
             (ifMeta 2) _ _)) _ _ _).
    + repeat split; try discriminate. intros (H & _). discriminate H.
    + reflexivity.
    + vm_compute. discriminate.
    + discriminate.
    + reflexivity.
Defined.

(** C2, witness: a route without outgoing interface. *)
Lemma missing_interface_witness :
  runs_to (route.Add d_eth0 "k" (mkRoute "" l3.StaticRoute_GLOBAL "10.0.0.0/24" ""))
          world0 (None, Some ErrRouteWithoutInterface) []
  /\ runs_to (route.Delete d_eth0 "k" (mkRoute "" l3.StaticRoute_GLOBAL "10.0.0.0/24" "") None)
             world0 (Some ErrRouteWithoutInterface) []
  /\ runs_to (route.Modify d_eth0 "k"
                (mkRoute "eth0" l3.StaticRoute_GLOBAL "10.0.0.0/24" "")
                (mkRoute "" l3.StaticRoute_GLOBAL "10.0.0.0/24" "") None)
             world0 (None, Some ErrRouteWithoutInterface) []
  /\ route.IsRetriableFailure d_eth0 (Some ErrRouteWithoutInterface) = false.
Proof.
  apply (missing_interface_is_terminal_without_calls d_eth0 "k"
           (mkRoute "" l3.StaticRoute_GLOBAL "10.0.0.0/24" "")
           (mkRoute "eth0" l3.StaticRoute_GLOBAL "10.0.0.0/24" "") None world0).
  reflexivity.
Defined.

(** C3, counterexample.  A link-local route with a gateway but without
    outgoing interface: [Add] and [Modify] return
    [ErrRouteWithoutInterface], not [ErrRouteLinkWithGw]. *)
Lemma link_local_with_gateway_without_interface :
  l3.Scope (mkRoute "" l3.StaticRoute_LINK "169.254.0.0/16" "10.0.0.1") = l3.StaticRoute_LINK
  /\ l3.GwAddr (mkRoute "" l3.StaticRoute_LINK "169.254.0.0/16" "10.0.0.1") <> ""
  /\ fst (route.Add d_eth0 "k" (mkRoute "" l3.StaticRoute_LINK "169.254.0.0/16" "10.0.0.1")
            world0)
     = (None, Some ErrRouteWithoutInterface)
  /\ fst (route.Modify d_eth0 "k"
            (mkRoute "eth0" l3.StaticRoute_LINK "169.254.0.0/16" "")
            (mkRoute "" l3.StaticRoute_LINK "169.254.0.0/16" "10.0.0.1") None world0)
     = (None, Some ErrRouteWithoutInterface)
  /\ Some ErrRouteWithoutInterface <> Some ErrRouteLinkWithGw.
Proof.
  repeat split; discriminate.
Qed.

(** C3, witness: the link-local route of the example scenario. *)
Lemma link_local_with_gateway_witness :
  runs_to (route.Add d_eth0 "k" (mkRoute "eth0" l3.StaticRoute_LINK "169.254.0.0/16" "10.0.0.1"))
          world0 (None, Some ErrRouteLinkWithGw) []
  /\ runs_to (route.Modify d_eth0 "k"
                (mkRoute "eth0" l3.StaticRoute_LINK "169.254.0.0/16" "")
                (mkRoute "eth0" l3.StaticRoute_LINK "169.254.0.0/16" "10.0.0.1") None)
             world0 (None, Some ErrRouteLinkWithGw) []
  /\ route.IsRetriableFailure d_eth0 (Some ErrRouteLinkWithGw) = false.
Proof.
  apply (link_local_with_gateway_is_terminal d_eth0 "k"
           (mkRoute "eth0" l3.StaticRoute_LINK "169.254.0.0/16" "10.0.0.1")
           (mkRoute "eth0" l3.StaticRoute_LINK "169.254.0.0/16" "") None world0);
    (reflexivity || discriminate).
Defined.

(** C5, witness: the same network written with and without host bits, and
    the same gateway in upper and in lower case. *)
Lemma EquivalentRoutes_representation_witness :
  route.EquivalentRoutes d_eth0 "k"
    (mkRoute "eth0" l3.StaticRoute_GLOBAL "2001:DB8::1/32" "FE80::1")
    (mkRoute "eth0" l3.StaticRoute_GLOBAL "2001:db8::/32" "fe80::1") = true.
Proof.
  refine (proj1 (EquivalentRoutes_modulo_representation (laws := RefLib_laws) d_eth0 "k"
           (mkRoute "eth0" l3.StaticRoute_GLOBAL "2001:DB8::1/32" "FE80::1")
           (mkRoute "eth0" l3.StaticRoute_GLOBAL "2001:db8::/32" "fe80::1") _ _ _ _ _)).
  - reflexivity.
  - reflexivity.
  - reflexivity.
  - right. unfold same_network. simpl.
    eexists _, _, _. split; vm_compute; reflexivity.
  - reflexivity.
Defined.

(** C6, witness: three workers over ten units. *)
Lemma dump_worker_slices_witness :
  Permutation (flat_map (fun i => route.dumpRoutes_indices i 3 10) (seq 0 3)) (seq 0 10)
  /\ route.dumpRoutes_indices 1 3 10 = [1; 4; 7].
Proof.
  split.
  - refine (proj1 (proj2 (proj2 (proj2 (dump_worker_slices_partition 3 10 _))))). lia.
  - reflexivity.
Defined.

(** C7, counterexample.  Six interfaces, two workers.  Worker 0 gathers the
    route of [eth0] and then fails on [eth2]; worker 1 gathers three routes
    without error.  When the result of worker 0 arrives first, [Dump]
    returns the error with an empty dump: the route worker 0 had gathered is
    dropped and the result of worker 1 is not awaited. *)
Lemma Dump_drops_gathered_routes :
  route.goRoutinesCnt d_six six = 2%Z
  /\ worker_result d_six 0
     = {| route.routes := [dumpedDefaultRoute "eth0"];
          route.err := Some (Errorf "failed to obtain metadata for interface eth2") |}
  /\ worker_result d_six 1
     = {| route.routes := [dumpedDefaultRoute "eth1"; dumpedDefaultRoute "eth3";
                           dumpedDefaultRoute "eth5"];
          route.err := None |}
  /\ route.arrival_order d_six [0; 1]
  /\ route.Dump d_six [0; 1] []
     = Some ([], Some (Errorf "failed to obtain metadata for interface eth2")).
Proof.
  split; [reflexivity|]. split; [reflexivity|]. split; [reflexivity|].
  split; [|reflexivity].
  unfold route.arrival_order. apply Permutation_refl.
Qed.

(** C7, witness: the same run with the results arriving in the other
    order; the routes of worker 1 are returned beside the error. *)
Lemma Dump_collects_witness :
  route.Dump d_six [1; 0] []
  = Some (flat_map (fun i => route.routes (worker_result d_six i)) [1],
          Some (Errorf "failed to obtain metadata for interface eth2")).
Proof.
  refine (proj2 (Dump_collects_until_first_error d_six [1; 0] [] _) [1] 0 [] _ _ _ _).
  - vm_compute. discriminate.
  - reflexivity.
  - intros i [<-|[]]. reflexivity.
  - reflexivity.
Defined.

(** C8, counterexample.  A punt is added with success, so it exists in VPP;
    the dump that follows is empty and does not list it. *)
Lemma punt_Dump_misses_added_punt :
  punt_to_host.Add d_punt "k" (mkPunt "") world0
  = ((None, None),
     {| netns := None; calls := [Call_AddPunt (mkPunt "")]; logs := [] |})
  /\ fst (punt_to_host.Dump d_punt []
            (snd (punt_to_host.Add d_punt "k" (mkPunt "") world0)))
     = ([], None)
  /\ ~ enumerates [mkPunt ""]
         (fst (fst (punt_to_host.Dump d_punt []
                      (snd (punt_to_host.Add d_punt "k" (mkPunt "") world0))))).
Proof.
  split; [reflexivity|]. split; [reflexivity|].
  intros H. destruct (H (mkPunt "")) as (kv & Hin & _); [now left|].
  exact Hin.
Qed.

(** C9, witness: a punt to the host and a punt to a socket. *)
Lemma Delete_without_socket_witness :
  runs_to (punt_to_host.Delete d_punt "k" (mkPunt "") None) world0 None []
  /\ runs_to (punt_to_host.Delete d_punt "k" (mkPunt "/run/punt.sock") None) world0 None
             [Call_DeregisterPuntSocket (mkPunt "/run/punt.sock")].
Proof.
  split.
  - refine (proj1 (proj1 (Delete_without_socket_is_noop d_punt "k" (mkPunt "") None world0) _)).
    reflexivity.
  - refine (proj2 (Delete_without_socket_is_noop d_punt "k" (mkPunt "/run/punt.sock")
                     None world0) _).
    discriminate.
Defined.

(** C10, witness: a route to the IPv6 network [2001:db8::/32] without
    gateway is given the gateway [0.0.0.0]; it is equivalent to the same
    route with gateway [0.0.0.0] and not to the one with gateway [::], and
    it depends on its interface only. *)
Lemma absent_gateway_IPv6_network_witness :
  route.getGwAddr (mkRoute "eth0" l3.StaticRoute_GLOBAL "2001:db8::/32" "") = "0.0.0.0"
  /\ route.EquivalentRoutes d_eth0 "k"
       (mkRoute "eth0" l3.StaticRoute_GLOBAL "2001:db8::/32" "")
       (mkRoute "eth0" l3.StaticRoute_GLOBAL "2001:db8::/32" "0.0.0.0") = true
  /\ route.EquivalentRoutes d_eth0 "k"
       (mkRoute "eth0" l3.StaticRoute_GLOBAL "2001:db8::/32" "")
       (mkRoute "eth0" l3.StaticRoute_GLOBAL "2001:db8::/32" "::") = false
  /\ route.EquivalentRoutes d_eth0 "k"
       (mkRoute "eth0" l3.StaticRoute_GLOBAL "2001:db8::/32" "::")
       (mkRoute "eth0" l3.StaticRoute_GLOBAL "2001:db8::/32" "") = false
  /\ route.Dependencies d_eth0 "k"
       (mkRoute "eth0" l3.StaticRoute_GLOBAL "2001:db8::/32" "")
     = [ {| Label := "interface"; Key := "linux/interface/state/eth0/UP"; AnyOf := None |} ].
Proof.
  pose proof (absent_gateway_of_network (laws := RefLib_laws) (fam := RefLib_family_laws)
                d_eth0 "k" (mkRoute "eth0" l3.StaticRoute_GLOBAL "2001:db8::/32" "")
                ([32; 1; 13; 184; 0; 0; 0; 0; 0; 0; 0; 0; 0; 0; 0; 0]%Z,
                 {| net.IP_ := [32; 1; 13; 184; 0; 0; 0; 0; 0; 0; 0; 0; 0; 0; 0; 0]%Z;
                    net.Mask := [255; 255; 255; 255; 0; 0; 0; 0; 0; 0; 0; 0; 0; 0; 0; 0]%Z |})
                eq_refl eq_refl) as (H1 & H2 & _ & H4 & H5 & H6 & _).
  split; [exact H1|]. split; [exact H2|]. split; [exact H4|]. split; [exact H5|].
  exact H6.
Defined.

End Examples.

(* ===================================================================== *)
(** ** Further properties of the route updates                            *)
(* ===================================================================== *)

Section Updates.
Context {lib : GoLib}.

Lemma after_nil (w : World) : after w [] [] = w.
Proof.
  destruct w as [ns cs ls]. unfold after; simpl. now rewrite !app_nil_r.
Qed.

(** [updateRoute] in terms of [prepare]: a refused route is logged and
    returned; a ready one leads to the namespace switch, the operation and
    the revert. *)
Lemma updateRoute_prepare (d : route.RouteDescriptor) (route : l3.StaticRoute)
    (actionName : string) (mk : netlink.Route -> Call)
    (op : option namespace.NetNamespace -> netlink.Route -> option error) (w : World) :
  route.updateRoute d route actionName (handler_call mk op) w =
  match prepare d route with
  | Refused e lookedUp =>
      (Some e,
       after w (if lookedUp then [Call_LookupByName (l3.OutgoingInterface route)] else [])
             [(ErrorLevel, Error e)])
  | Ready m nr =>
      match SwitchToNamespace (route.nsPlugin d) (Namespace m) with
      | Some e =>
          (Some (Errorf ("failed to switch namespace: " ++ Error e)),
           after w [Call_LookupByName (l3.OutgoingInterface route);
                    Call_SwitchToNamespace (Namespace m)]
                 [(ErrorLevel, ("failed to switch namespace: " ++ Error e)%string)])
      | None =>
          match op (Namespace m) nr with
          | Some e =>
              (Some (Errorf ("failed to " ++ actionName ++ " linux route: " ++ Error e)),
               after w [Call_LookupByName (l3.OutgoingInterface route);
                        Call_SwitchToNamespace (Namespace m); mk nr; Call_revertNs]
                     [(ErrorLevel,
                       ("failed to " ++ actionName ++ " linux route: " ++ Error e)%string)])
          | None =>
              (None,
               after w [Call_LookupByName (l3.OutgoingInterface route);
                        Call_SwitchToNamespace (Namespace m); mk nr; Call_revertNs] [])
          end
      end
  end.
Proof.
  unfold route.updateRoute, prepare.
  destruct (l3.OutgoingInterface route =? "") eqn:Hi;
    [unfold after, bind, log_Error, ret; simpl; now rewrite app_nil_r|].
  destruct (l3.DstNetwork route =? "");
    [unfold after, bind, log_Error, ret; simpl; now rewrite app_nil_r|].
  destruct (l3.StaticRoute_Scope_eqb _ _ && _);
    [unfold after, bind, log_Error, ret; simpl; now rewrite app_nil_r|].
  unfold call_LookupByName, bind, record_call, ret, after; simpl.
  destruct (LookupByName _ _) as [[m|] [|]]; simpl; try reflexivity.
  destruct (net_ParseCIDR _) as [[ip dstNet]|]; simpl; [|reflexivity].
  destruct (if l3.GwAddr route =? "" then _ else _) as [gw|]; simpl; [|reflexivity].
  destruct (route.rtScopeFromNBToNetlink _) as [scope|e]; simpl; [|reflexivity].
  unfold call_SwitchToNamespace, bind, get_netns, record_call, set_netns, ret; simpl.
  destruct (SwitchToNamespace _ _) as [e|]; simpl.
  - now rewrite <- app_assoc.
  - unfold handler_call, bind, get_netns, record_call, ret; simpl.
    destruct (op _ _) as [e|]; simpl; rewrite <- !app_assoc; simpl.
    + reflexivity.
    + now rewrite app_nil_r.
Qed.

Lemma Add_as_update (d : route.RouteDescriptor) (key : string) (route : l3.StaticRoute)
    (w : World) :
  route.Add d key route w
  = (let (e, w') := route.updateRoute d route "add"
                      (handler_call Call_AddStaticRoute (AddStaticRoute (route.l3Handler d))) w
     in ((None, e), w')).
Proof. reflexivity. Qed.

Lemma Modify_as_update (d : route.RouteDescriptor) (key : string)
    (oldRoute newRoute : l3.StaticRoute) (metadata : Metadata) (w : World) :
  route.Modify d key oldRoute newRoute metadata w
  = (let (e, w') := route.updateRoute d newRoute "modify"
                      (handler_call Call_ReplaceStaticRoute
                                    (ReplaceStaticRoute (route.l3Handler d))) w
     in ((None, e), w')).
Proof. reflexivity. Qed.

Lemma Delete_as_update (d : route.RouteDescriptor) (key : string) (route : l3.StaticRoute)
    (metadata : Metadata) (w : World) :
  route.Delete d key route metadata w
  = route.updateRoute d route "delete"
      (handler_call Call_DelStaticRoute (DelStaticRoute (route.l3Handler d))) w.
Proof. reflexivity. Qed.

(** [prepare] is ready exactly on the routes that resolve. *)
Lemma prepare_Ready_iff (d : route.RouteDescriptor) (route : l3.StaticRoute)
    (m : LinuxIfMetadata) (nr : netlink.Route) :
  prepare d route = Ready m nr <-> resolves d route m nr.
Proof.
  unfold prepare, resolves, passes_presence_checks. split.
  - destruct (String.eqb_spec (l3.OutgoingInterface route) ""); [discriminate|].
    destruct (String.eqb_spec (l3.DstNetwork route) ""); [discriminate|].
    destruct (l3.StaticRoute_Scope_eqb _ _ && _) eqn:El; [discriminate|].
    destruct (LookupByName _ _) as [[m'|] [|]]; try discriminate.
    destruct (net_ParseCIDR _) as [[ip dstNet]|]; [|discriminate].
    destruct (String.eqb_spec (l3.GwAddr route) "") as [Hg|Hg].
    + destruct (route.rtScopeFromNBToNetlink _) as [scope|e] eqn:Es; [|discriminate].
      intros H. injection H as <- <-.
      split; [repeat split; try assumption; intros (_ & ?); congruence|].
      split; [reflexivity|]. exists ip, dstNet, [], scope. auto.
    + destruct (net_ParseIP _) as [gw|]; [|discriminate].
      destruct (route.rtScopeFromNBToNetlink _) as [scope|e] eqn:Es; [|discriminate].
      intros H. injection H as <- <-.
      split.
      { repeat split; try assumption. intros (Hs & _).
        rewrite Hs in El. simpl in El. discriminate. }
      split; [reflexivity|]. exists ip, dstNet, gw, scope. auto.
  - intros ((Hi & Hd & Hl) & Hlk & ip & dstNet & gw & scope & Hc & Hg & Hs & ->).
    apply String.eqb_neq in Hi, Hd. rewrite Hi, Hd.
    assert (El : l3.StaticRoute_Scope_eqb (l3.Scope route) l3.StaticRoute_LINK
                 && negb (l3.GwAddr route =? "") = false).
    { destruct (_ && _) eqn:E; [|reflexivity].
      apply andb_true_iff in E as (E1 & E2). exfalso. apply Hl. split.
      - destruct (l3.Scope route); simpl in E1; congruence.
      - apply negb_true_iff in E2. now apply String.eqb_neq. }
    rewrite El, Hlk, Hc, Hs.
    destruct (l3.GwAddr route =? ""); [now subst gw|now rewrite Hg].
Qed.

(** X2.  Whatever the route and the collaborators' answers, an [Add], a
    [Delete] or a [Modify] makes the interface lookup at most once and at
    most one Netlink operation, the operation only between a namespace
    switch and its revert, and a revert exactly after a switch that was
    followed by the operation; when it returns, the thread is in the
    namespace it started in. *)
Theorem update_call_discipline
    (d : route.RouteDescriptor) (key : string) (route oldRoute : l3.StaticRoute)
    (metadata : Metadata) (w : World) :
  (exists cs, update_calls (l3.OutgoingInterface route) Call_AddStaticRoute cs
              /\ calls (snd (route.Add d key route w)) = calls w ++ cs
              /\ netns (snd (route.Add d key route w)) = netns w)
  /\ (exists cs, update_calls (l3.OutgoingInterface route) Call_DelStaticRoute cs
              /\ calls (snd (route.Delete d key route metadata w)) = calls w ++ cs
              /\ netns (snd (route.Delete d key route metadata w)) = netns w)
  /\ (exists cs, update_calls (l3.OutgoingInterface route) Call_ReplaceStaticRoute cs
              /\ calls (snd (route.Modify d key oldRoute route metadata w)) = calls w ++ cs
              /\ netns (snd (route.Modify d key oldRoute route metadata w)) = netns w).
Proof.
  assert (G : forall name mk op,
            exists cs, update_calls (l3.OutgoingInterface route) mk cs
              /\ calls (snd (route.updateRoute d route name (handler_call mk op) w))
                 = calls w ++ cs
              /\ netns (snd (route.updateRoute d route name (handler_call mk op) w))
                 = netns w).
  { intros name mk op. rewrite updateRoute_prepare.
    destruct (prepare d route) as [e [|]|m nr].
    - eexists. split; [apply update_calls_lookup|]. split; reflexivity.
    - eexists. split; [apply update_calls_none|]. split; reflexivity.
    - destruct (SwitchToNamespace _ _).
      + eexists. split; [apply update_calls_switch|]. split; reflexivity.
      + destruct (op _ _); eexists;
          (split; [apply update_calls_operation|]; split; reflexivity). }
  split; [|split].
  - rewrite Add_as_update.
    destruct (G "add" Call_AddStaticRoute (AddStaticRoute (route.l3Handler d)))
      as (cs & Hs & Hc & Hn).
    destruct (route.updateRoute _ _ _ _ w); simpl in *. eauto.
  - rewrite Delete_as_update. apply G.
  - rewrite Modify_as_update.
    destruct (G "modify" Call_ReplaceStaticRoute (ReplaceStaticRoute (route.l3Handler d)))
      as (cs & Hs & Hc & Hn).
    destruct (route.updateRoute _ _ _ _ w); simpl in *. eauto.
Qed.

(** An update succeeds exactly when the route resolves, the namespace
    switch succeeds and the operation succeeds on the route built, in the
    namespace of the interface. *)
Lemma updateRoute_succeeds_iff (d : route.RouteDescriptor) (route : l3.StaticRoute)
    (name : string) (mk : netlink.Route -> Call)
    (op : option namespace.NetNamespace -> netlink.Route -> option error) (w : World) :
  fst (route.updateRoute d route name (handler_call mk op) w) = None
  <-> exists m nr,
        resolves d route m nr
        /\ SwitchToNamespace (route.nsPlugin d) (Namespace m) = None
        /\ op (Namespace m) nr = None.
Proof.
  rewrite updateRoute_prepare. split.
  - destruct (prepare d route) as [e b|m nr] eqn:Ep; [discriminate|].
    apply prepare_Ready_iff in Ep.
    destruct (SwitchToNamespace _ _) eqn:Esw; [discriminate|].
    destruct (op _ _) eqn:Eop; [discriminate|].
    intros _. exists m, nr. auto.
  - intros (m & nr & Hr & Hsw & Hop). apply prepare_Ready_iff in Hr.
    now rewrite Hr, Hsw, Hop.
Qed.

(** X3.  [Add] returns no error exactly when the route value resolves to a
    Netlink route (presence checks, interface lookup, parsed destination
    and gateway, converted scope, the metric as priority), the switch to
    the namespace of the interface succeeds and [AddStaticRoute] succeeds
    on that route in that namespace; the like holds of [Delete] with
    [DelStaticRoute] and of [Modify] with [ReplaceStaticRoute] on the new
    value. *)
Theorem update_succeeds_iff
    (d : route.RouteDescriptor) (key : string) (route oldRoute : l3.StaticRoute)
    (metadata : Metadata) (w : World) :
  (fst (route.Add d key route w) = (None, None)
   <-> exists m nr,
         resolves d route m nr
         /\ SwitchToNamespace (route.nsPlugin d) (Namespace m) = None
         /\ AddStaticRoute (route.l3Handler d) (Namespace m) nr = None)
  /\ (fst (route.Delete d key route metadata w) = None
   <-> exists m nr,
         resolves d route m nr
         /\ SwitchToNamespace (route.nsPlugin d) (Namespace m) = None
         /\ DelStaticRoute (route.l3Handler d) (Namespace m) nr = None)
  /\ (fst (route.Modify d key oldRoute route metadata w) = (None, None)
   <-> exists m nr,
         resolves d route m nr
         /\ SwitchToNamespace (route.nsPlugin d) (Namespace m) = None
         /\ ReplaceStaticRoute (route.l3Handler d) (Namespace m) nr = None).
Proof.
  split; [|split].
  - rewrite <- updateRoute_succeeds_iff
      with (name := "add") (mk := Call_AddStaticRoute) (w := w).
    rewrite Add_as_update. destruct (route.updateRoute _ _ _ _ w) as [e w']; simpl.
    split; [intros H; now injection H|intros ->; reflexivity].
  - rewrite Delete_as_update. apply updateRoute_succeeds_iff.
  - rewrite <- updateRoute_succeeds_iff
      with (name := "modify") (mk := Call_ReplaceStaticRoute) (w := w).
    rewrite Modify_as_update. destruct (route.updateRoute _ _ _ _ w) as [e w']; simpl.
    split; [intros H; now injection H|intros ->; reflexivity].
Qed.

(** A terminal error of an update comes from [prepare], whatever the
    operation. *)
Lemma updateRoute_terminal (d : route.RouteDescriptor) (route : l3.StaticRoute)
    (name : string) (mk : netlink.Route -> Call)
    (op : option namespace.NetNamespace -> netlink.Route -> option error)
    (w : World) (e : error) :
  fst (route.updateRoute d route name (handler_call mk op) w) = Some e ->
  route.IsRetriableFailure d (Some e) = false ->
  exists lookedUp,
    prepare d route = Refused e lookedUp
    /\ route.updateRoute d route name (handler_call mk op) w
       = (Some e,
          after w (if lookedUp then [Call_LookupByName (l3.OutgoingInterface route)] else [])
                [(ErrorLevel, Error e)]).
Proof.
  rewrite updateRoute_prepare.
  destruct (prepare d route) as [e' b|m nr]; simpl.
  - intros H _. injection H as ->. now exists b.
  - destruct (SwitchToNamespace _ _); simpl.
    + intros H Hr. injection H as <-. discriminate Hr.
    + destruct (op _ _); simpl; intros H Hr; [|discriminate H].
      injection H as <-. discriminate Hr.
Qed.

(** X4.  A terminal error is returned before any namespace switch and any
    Netlink operation: when [Add], [Delete] or [Modify] returns an error
    for which [IsRetriableFailure] is false, it has made no resource call
    beside, at most, the interface lookup.  So the errors of a namespace
    switch and of a Netlink operation are always retriable. *)
Theorem terminal_error_precedes_switch
    (d : route.RouteDescriptor) (key : string) (route oldRoute : l3.StaticRoute)
    (metadata : Metadata) (w : World) (e : error) :
  route.IsRetriableFailure d (Some e) = false ->
  (snd (fst (route.Add d key route w)) = Some e ->
     calls (snd (route.Add d key route w)) = calls w
     \/ calls (snd (route.Add d key route w))
        = calls w ++ [Call_LookupByName (l3.OutgoingInterface route)])
  /\ (fst (route.Delete d key route metadata w) = Some e ->
     calls (snd (route.Delete d key route metadata w)) = calls w
     \/ calls (snd (route.Delete d key route metadata w))
        = calls w ++ [Call_LookupByName (l3.OutgoingInterface route)])
  /\ (snd (fst (route.Modify d key oldRoute route metadata w)) = Some e ->
     calls (snd (route.Modify d key oldRoute route metadata w)) = calls w
     \/ calls (snd (route.Modify d key oldRoute route metadata w))
        = calls w ++ [Call_LookupByName (l3.OutgoingInterface route)]).
Proof.
  intros Hr.
  assert (G : forall name mk op,
            fst (route.updateRoute d route name (handler_call mk op) w) = Some e ->
            calls (snd (route.updateRoute d route name (handler_call mk op) w)) = calls w
            \/ calls (snd (route.updateRoute d route name (handler_call mk op) w))
               = calls w ++ [Call_LookupByName (l3.OutgoingInterface route)]).
  { intros name mk op He.
    destruct (updateRoute_terminal d route name mk op w e He Hr) as ([|] & _ & ->); simpl.
    - now right.
    - left. apply app_nil_r. }
  split; [|split].
  - rewrite Add_as_update.
    specialize (G "add" Call_AddStaticRoute (AddStaticRoute (route.l3Handler d))).
    destruct (route.updateRoute _ _ _ _ w); simpl in *. exact G.
  - rewrite Delete_as_update. apply G.
  - rewrite Modify_as_update.
    specialize (G "modify" Call_ReplaceStaticRoute (ReplaceStaticRoute (route.l3Handler d))).
    destruct (route.updateRoute _ _ _ _ w); simpl in *. exact G.
Qed.

(** X5.  Validation does not depend on the operation: when [Add] refuses a
    route value with a terminal error, [Delete] of that value and [Modify]
    to that value return the same error and leave the same world (calls
    and log); a route value that cannot be added cannot be deleted through
    the descriptor either. *)
Theorem validation_is_shared
    (d : route.RouteDescriptor) (key : string) (route oldRoute : l3.StaticRoute)
    (metadata : Metadata) (w : World) (e : error) :
  snd (fst (route.Add d key route w)) = Some e ->
  route.IsRetriableFailure d (Some e) = false ->
  route.Delete d key route metadata w = (Some e, snd (route.Add d key route w))
  /\ route.Modify d key oldRoute route metadata w
     = ((None, Some e), snd (route.Add d key route w)).
Proof.
  intros He Hr.
  assert (Hu : fst (route.updateRoute d route "add"
                      (handler_call Call_AddStaticRoute
                                    (AddStaticRoute (route.l3Handler d))) w) = Some e).
  { rewrite Add_as_update in He. now destruct (route.updateRoute _ _ _ _ w). }
  destruct (updateRoute_terminal d route _ _ _ w e Hu Hr) as (b & Hp & Ea).
  rewrite Delete_as_update, Modify_as_update, Add_as_update, Ea.
  rewrite !updateRoute_prepare, Hp. split; reflexivity.
Qed.

End Updates.

(* ===================================================================== *)
(** ** Further properties of scopes, comparison and dependencies          *)
(* ===================================================================== *)

Section ScopesAndComparison.
Context {lib : GoLib}.

(** X1.  The two scope conversions are inverse to each other wherever they
    succeed, and they fail, with [ErrRouteWithUndefinedScope], exactly on
    the scopes that have no counterpart. *)
Theorem rtScope_conversions_inverse :
  (forall s n, route.rtScopeFromNBToNetlink s = inl n ->
               route.rtScopeFromNetlinkToNB n = inl s)
  /\ (forall n s, route.rtScopeFromNetlinkToNB n = inl s ->
                  route.rtScopeFromNBToNetlink s = inl n)
  /\ (forall s, route.rtScopeFromNBToNetlink s = inr ErrRouteWithUndefinedScope
                <-> s = l3.StaticRoute_UNDEFINED)
  /\ (forall n, route.rtScopeFromNetlinkToNB n = inr ErrRouteWithUndefinedScope
                <-> n = netlink.SCOPE_NOWHERE)
  /\ (forall s e, route.rtScopeFromNBToNetlink s = inr e -> e = ErrRouteWithUndefinedScope)
  /\ (forall n e, route.rtScopeFromNetlinkToNB n = inr e -> e = ErrRouteWithUndefinedScope).
Proof.
  split; [|split; [|split; [|split; [|split]]]].
  - intros [] n H; simpl in H; try discriminate H; injection H as <-; reflexivity.
  - intros [] s H; simpl in H; try discriminate H; injection H as <-; reflexivity.
  - intros []; simpl; split; intro H; try discriminate H; reflexivity.
  - intros []; simpl; split; intro H; try discriminate H; reflexivity.
  - intros [] e H; simpl in H; try discriminate H. now injection H.
  - intros [] e H; simpl in H; try discriminate H. now injection H.
Qed.

Lemma bytesEqual_sym (a : list Z) : forall b, net.bytesEqual a b = net.bytesEqual b a.
Proof.
  induction a as [|x a IH]; intros [|y b]; simpl; try reflexivity.
  now rewrite Z.eqb_sym, IH.
Qed.

Lemma Equal_sym (a b : net.IP) : net.Equal a b = net.Equal b a.
Proof.
  unfold net.Equal. rewrite (Nat.eqb_sym (length b) (length a)).
  destruct (length a =? length b)%nat eqn:E; [apply bytesEqual_sym|].
  destruct (length a =? net.IPv4len)%nat eqn:Ea4, (length b =? net.IPv6len)%nat eqn:Eb6,
           (length a =? net.IPv6len)%nat eqn:Ea6, (length b =? net.IPv4len)%nat eqn:Eb4;
    simpl; try reflexivity;
    try (f_equal; apply bytesEqual_sym);
    apply Nat.eqb_eq in Ea4, Ea6 || apply Nat.eqb_eq in Eb4, Eb6;
    unfold net.IPv4len, net.IPv6len in *; lia.
Qed.

Lemma equalAddrs_sym (a b : string) : route.equalAddrs a b = route.equalAddrs b a.
Proof.
  unfold route.equalAddrs.
  destruct (net_ParseIP a), (net_ParseIP b);
    (apply Equal_sym || apply String.eqb_sym).
Qed.

Lemma equalNetworks_sym (a b : string) : route.equalNetworks a b = route.equalNetworks b a.
Proof.
  unfold route.equalNetworks.
  destruct (net_ParseCIDR a) as [[ia na]|], (net_ParseCIDR b) as [[ib nb]|];
    try apply String.eqb_sym.
  now rewrite Equal_sym, bytesEqual_sym.
Qed.

Lemma Scope_eqb_sym (a b : l3.StaticRoute_Scope) :
  l3.StaticRoute_Scope_eqb a b = l3.StaticRoute_Scope_eqb b a.
Proof. destruct a, b; reflexivity. Qed.

(** X6.  Whatever the library, [EquivalentRoutes] is reflexive and
    symmetric, does not depend on the key nor on the descriptor, and holds
    only of routes with the same outgoing interface, scope and metric. *)
Theorem EquivalentRoutes_reflexive_symmetric
    (d d' : route.RouteDescriptor) (key key' : string) (a b : l3.StaticRoute) :
  route.EquivalentRoutes d key a a = true
  /\ route.EquivalentRoutes d key a b = route.EquivalentRoutes d' key' b a
  /\ (route.EquivalentRoutes d key a b = true ->
      l3.OutgoingInterface a = l3.OutgoingInterface b
      /\ l3.Scope a = l3.Scope b
      /\ l3.Metric a = l3.Metric b).
Proof.
  split; [|split].
  - unfold route.EquivalentRoutes.
    rewrite String.eqb_refl, Scope_eqb_refl, Z.eqb_refl, equalNetworks_refl; simpl.
    apply equalAddrs_refl.
  - unfold route.EquivalentRoutes.
    rewrite (String.eqb_sym (l3.OutgoingInterface b)), (Scope_eqb_sym (l3.Scope b)),
            (Z.eqb_sym (l3.Metric b)), (equalNetworks_sym (l3.DstNetwork b)),
            (equalAddrs_sym (route.getGwAddr b)).
    reflexivity.
  - unfold route.EquivalentRoutes.
    destruct (String.eqb_spec (l3.OutgoingInterface a) (l3.OutgoingInterface b));
      [|discriminate].
    destruct (l3.StaticRoute_Scope_eqb (l3.Scope a) (l3.Scope b)) eqn:Es; [|discriminate].
    destruct (Z.eqb_spec (l3.Metric a) (l3.Metric b)); [|discriminate].
    intros _. apply Scope_eqb_eq in Es. auto.
Qed.

Section Derived.
Context {keys : ModelKeys}.

(** X7.  A link-local route makes the gateways inside its destination
    reachable: [DerivedValues] of a link-local route is one empty value
    under its link-local key, and when that key parses back to the
    interface and a network containing the (specified) gateway of another
    route via the same interface, the key satisfies the gateway-reachability
    dependency of that other route.  A route of another scope derives
    nothing. *)
Theorem link_local_route_satisfies_gateway_dependency
    (d : route.RouteDescriptor) (key1 key2 : string) (r1 r2 : l3.StaticRoute)
    (gw : net.IP) (n : net.IPNet) :
  l3.Scope r1 = l3.StaticRoute_LINK ->
  l3.OutgoingInterface r2 = l3.OutgoingInterface r1 ->
  net_ParseIP (route.getGwAddr r2) = Some gw ->
  net.IsUnspecified gw = false ->
  l3_ParseStaticLinkLocalRouteKey
    (l3_StaticLinkLocalRouteKey (l3.DstNetwork r1) (l3.OutgoingInterface r1))
  = (Some n, l3.OutgoingInterface r1, true) ->
  net_IPNet_Contains (Some n) gw = true ->
  route.DerivedValues d key1 r1
  = [ {| KVPKey := l3_StaticLinkLocalRouteKey (l3.DstNetwork r1) (l3.OutgoingInterface r1);
         KVPValue := Msg_Empty |} ]
  /\ (exists dep anyOf,
        In dep (route.Dependencies d key2 r2)
        /\ Label dep = route.routeGwReachabilityDep
        /\ AnyOf dep = Some anyOf
        /\ forall kv, In kv (route.DerivedValues d key1 r1) -> anyOf (KVPKey kv) = true)
  /\ (forall r, l3.Scope r <> l3.StaticRoute_LINK -> route.DerivedValues d key1 r = []).
Proof.
  intros Hs Hi Hgw Hun Hkey Hin.
  assert (Hd : route.DerivedValues d key1 r1
               = [ {| KVPKey := l3_StaticLinkLocalRouteKey (l3.DstNetwork r1)
                                  (l3.OutgoingInterface r1);
                      KVPValue := Msg_Empty |} ]).
  { unfold route.DerivedValues. now rewrite Hs. }
  split; [exact Hd|]. split.
  - unfold route.Dependencies. rewrite Hgw, Hun. simpl.
    eexists. eexists. split; [apply in_or_app; right; now left|].
    split; [reflexivity|]. split; [reflexivity|].
    intros kv Hkv. rewrite Hd in Hkv. destruct Hkv as [<-|[]]. simpl.
    rewrite Hkey, Hi, String.eqb_refl, Hin. reflexivity.
  - intros r Hr. unfold route.DerivedValues.
    destruct (l3.StaticRoute_Scope_eqb _ _) eqn:E; [|reflexivity].
    apply Scope_eqb_eq in E. contradiction.
Qed.

End Derived.
End ScopesAndComparison.

(* ===================================================================== *)
(** ** Further properties of the route dump                               *)
(* ===================================================================== *)

Section DumpWorkers.
Context {lib : GoLib}.

Lemma goRoutinesCnt_eq (d : route.RouteDescriptor) (interfaces : list string) :
  (1 <= minWorkForGoRoutine)%Z ->
  route.goRoutinesCnt d interfaces
  = Z.min (route.dumpGoRoutinesCnt d)
          (Z.max 1 (Z.of_nat (length interfaces) / minWorkForGoRoutine)).
Proof.
  intros Hm. unfold route.goRoutinesCnt.
  rewrite Z.quot_div_nonneg by lia.
  assert (0 <= Z.of_nat (length interfaces) / minWorkForGoRoutine)%Z
    by (apply Z.div_pos; lia).
  destruct (Z.eqb_spec (Z.of_nat (length interfaces) / minWorkForGoRoutine) 0) as [->|Hne].
  - destruct (Z.gtb_spec 1 (route.dumpGoRoutinesCnt d)); lia.
  - destruct (Z.gtb_spec (Z.of_nat (length interfaces) / minWorkForGoRoutine)
                         (route.dumpGoRoutinesCnt d)); lia.
Qed.

Lemma NoDup_map_injective {A B : Type} (f : A -> B) (l : list A) :
  (forall x y, f x = f y -> x = y) -> NoDup l -> NoDup (map f l).
Proof.
  intros Hinj. induction 1 as [|a l Ha Hl IH]; simpl; constructor; [|assumption].
  intros Hin. apply in_map_iff in Hin as (x & Hx & Hxl).
  apply Hinj in Hx. now subst x.
Qed.

(** X8.  With a positive bound, [Dump] starts
    [min(dumpGoRoutinesCnt, max(1, len(interfaces) / minWorkForGoRoutine))]
    workers: at least one, never more than the bound, and, when there are
    two or more, each of them has at least [minWorkForGoRoutine] interfaces
    in its slice. *)
Theorem goRoutinesCnt_bounds (d : route.RouteDescriptor) (interfaces : list string) :
  (1 <= minWorkForGoRoutine)%Z ->
  (1 <= route.dumpGoRoutinesCnt d)%Z ->
  route.goRoutinesCnt d interfaces
  = Z.min (route.dumpGoRoutinesCnt d)
          (Z.max 1 (Z.of_nat (length interfaces) / minWorkForGoRoutine))
  /\ (1 <= route.goRoutinesCnt d interfaces <= route.dumpGoRoutinesCnt d)%Z
  /\ ((2 <= route.goRoutinesCnt d interfaces)%Z ->
      forall idx,
        idx < Z.to_nat (route.goRoutinesCnt d interfaces) ->
        (minWorkForGoRoutine
         <= Z.of_nat (length (route.dumpRoutes_indices idx
                                (Z.to_nat (route.goRoutinesCnt d interfaces))
                                (length interfaces))))%Z).
Proof.
  intros Hm Hb. pose proof (goRoutinesCnt_eq d interfaces Hm) as E.
  split; [exact E|]. split; [lia|].
  intros H2 idx Hidx.
  set (c := route.goRoutinesCnt d interfaces) in *.
  set (len := length interfaces) in *.
  assert (Hq : (c <= Z.of_nat len / minWorkForGoRoutine)%Z) by lia.
  assert (Hmul : (c * minWorkForGoRoutine <= Z.of_nat len)%Z).
  { assert (Hpos : (0 < minWorkForGoRoutine)%Z) by lia.
    pose proof (Z.mul_div_le (Z.of_nat len) minWorkForGoRoutine Hpos). nia. }
  set (mw := Z.to_nat minWorkForGoRoutine).
  set (cn := Z.to_nat c) in *.
  assert (Hcn : 1 <= cn) by lia.
  assert (Hlen : cn * mw <= len) by (unfold cn, mw; nia).
  assert (Hincl : incl (map (fun j => idx + j * cn) (seq 0 mw))
                       (route.dumpRoutes_indices idx cn len)).
  { intros k Hk. apply in_map_iff in Hk as (j & <- & Hj). apply in_seq in Hj.
    apply indices_In; [assumption..|]. split; [nia|].
    rewrite Nat.Div0.mod_add. now apply Nat.mod_small. }
  assert (Hnd : NoDup (map (fun j => idx + j * cn) (seq 0 mw))).
  { apply NoDup_map_injective; [|apply seq_NoDup].
    intros x y Hxy. nia. }
  pose proof (NoDup_incl_length Hnd Hincl) as Hl.
  rewrite length_map, length_seq in Hl. unfold mw in Hl. lia.
Qed.

(** X9.  A bound of zero starts no worker: [Dump] then returns an empty
    dump and no error, whatever interfaces there are.  A negative bound
    makes [Dump] panic. *)
Theorem Dump_without_workers
    (d : route.RouteDescriptor) (arrival : list nat)
    (correlate : list route.RouteKVWithMetadata) :
  (1 <= minWorkForGoRoutine)%Z ->
  (route.dumpGoRoutinesCnt d = 0%Z ->
     route.arrival_order d arrival ->
     route.Dump d arrival correlate = Some ([], None))
  /\ ((route.dumpGoRoutinesCnt d < 0)%Z -> route.Dump d arrival correlate = None).
Proof.
  intros Hm.
  pose proof (goRoutinesCnt_eq d (ListAllInterfaces (route.ifPlugin d)) Hm) as E.
  assert (0 <= Z.of_nat (length (ListAllInterfaces (route.ifPlugin d)))
               / minWorkForGoRoutine)%Z by (apply Z.div_pos; lia).
  split.
  - intros H0 Harr. unfold route.arrival_order in Harr. unfold route.Dump.
    rewrite E, H0 in *.
    replace (Z.min 0 _) with 0%Z in * by lia. simpl in *.
    apply Permutation_sym, Permutation_nil in Harr. now subst arrival.
  - intros Hneg. unfold route.Dump. rewrite E.
    destruct (Z.ltb_spec (Z.min (route.dumpGoRoutinesCnt d)
                (Z.max 1 (Z.of_nat (length (ListAllInterfaces (route.ifPlugin d)))
                          / minWorkForGoRoutine))) 0); [reflexivity|lia].
Qed.

(** Every entry the conversion makes of a route of interface [ifName]. *)
Lemma convertRoute_entry (ifName : string) (lenV4 idx : nat) (r : netlink.Route)
    (kv : route.RouteKVWithMetadata) :
  In kv (route.convertRoute ifName lenV4 idx r) ->
  route.Origin kv = UnknownOrigin
  /\ route.KVMetadata kv = None
  /\ route.KVKey kv = l3_StaticRouteKey (l3.DstNetwork (route.Value kv))
                                        (l3.OutgoingInterface (route.Value kv))
  /\ l3.OutgoingInterface (route.Value kv) = ifName
  /\ route.rtScopeFromNetlinkToNB (netlink.RouteScope r) = inl (l3.Scope (route.Value kv))
  /\ l3.Metric (route.Value kv) = (netlink.Priority r mod 2 ^ 32)%Z.
Proof.
  unfold route.convertRoute.
  destruct (match netlink.Dst r with Some _ => _ | None => _ end); [intros []|].
  destruct (route.rtScopeFromNetlinkToNB _) as [scope|e]; [|intros []].
  intros [<-|[]]. simpl. repeat split; reflexivity.
Qed.

Lemma convertRoutes_In (ifName : string) (lenV4 : nat) (rs : list netlink.Route) :
  forall idx kv,
    In kv (route.convertRoutes ifName lenV4 idx rs) ->
    exists i r, In r rs /\ In kv (route.convertRoute ifName lenV4 i r).
Proof.
  induction rs as [|r rs IH]; intros idx kv H; simpl in H; [contradiction|].
  apply in_app_or in H as [H|H].
  - exists idx, r. split; [now left|assumption].
  - destruct (IH _ _ H) as (i & r' & Hr & Hkv). exists i, r'. split; [now right|assumption].
Qed.

Lemma convertRoutes_well_dumped (interfaces : list string) (ifName : string)
    (lenV4 idx : nat) (rs : list netlink.Route) :
  In ifName interfaces ->
  Forall (well_dumped interfaces) (route.convertRoutes ifName lenV4 idx rs).
Proof.
  intros Hin. apply Forall_forall. intros kv Hkv.
  apply convertRoutes_In in Hkv as (i & r & _ & Hkv).
  apply convertRoute_entry in Hkv as (Ho & Hm & Hk & Hi & Hs & Hp).
  unfold well_dumped.
  split; [assumption|]. split; [assumption|]. split; [assumption|].
  split; [now rewrite Hi|]. split.
  - intros Hu. rewrite Hu in Hs. destruct (netlink.RouteScope r); discriminate Hs.
  - rewrite Hp. apply Z.mod_pos_bound. lia.
Qed.

Lemma indices_from_below (cnt len : nat) :
  forall fuel i, Forall (fun k => k < len) (route.dumpRoutes_indices_from fuel i cnt len).
Proof.
  induction fuel as [|fuel IH]; intros i; simpl; [constructor|].
  destruct (Nat.ltb_spec i len); constructor; [assumption|apply IH].
Qed.

Lemma dumpRoutes_loop_well_dumped (d : route.RouteDescriptor) (interfaces : list string)
    (idxs : list nat) :
  Forall (fun k => k < length interfaces) idxs ->
  forall dump,
    Forall (well_dumped interfaces) (route.routes dump) ->
    Forall (well_dumped interfaces)
           (route.routes (route.dumpRoutes_loop d interfaces idxs dump)).
Proof.
  induction 1 as [|i idxs Hi Hidx IH]; intros dump Hd; simpl; [assumption|].
  destruct (LookupByName _ _) as [[m|] [|]]; simpl; try assumption.
  destruct (SwitchToNamespace _ _); [now apply IH|].
  destruct (GetStaticRoutes _ _ _) as [[v4 v6] [e|]]; simpl; [assumption|].
  apply IH. simpl. apply Forall_app. split; [assumption|].
  apply convertRoutes_well_dumped. now apply nth_In.
Qed.

Lemma collect_Forall (P : route.RouteKVWithMetadata -> Prop)
    (results : list route.routeDump) :
  (forall rd, In rd results -> Forall P (route.routes rd)) ->
  forall dump, Forall P dump -> Forall P (fst (route.collect dump results)).
Proof.
  induction results as [|rd results IH]; intros Hr dump Hd; simpl; [assumption|].
  destruct (route.err rd); [assumption|].
  apply IH; [intros; apply Hr; now right|].
  apply Forall_app. split; [assumption|apply Hr; now left].
Qed.

Lemma Dump_entries_well_formed_aux
    (d : route.RouteDescriptor) (arrival : list nat)
    (correlate dump : list route.RouteKVWithMetadata) (e : option error) :
  route.Dump d arrival correlate = Some (dump, e) ->
  Forall (well_dumped (ListAllInterfaces (route.ifPlugin d))) dump.
Proof.
  unfold route.Dump.
  destruct (_ <? 0)%Z; [discriminate|].
  intros H. injection H as H.
  assert (G : Forall (well_dumped (ListAllInterfaces (route.ifPlugin d)))
                (fst (route.collect []
                   (map (fun idx => route.dumpRoutes d (ListAllInterfaces (route.ifPlugin d))
                           idx (Z.to_nat (route.goRoutinesCnt d
                                            (ListAllInterfaces (route.ifPlugin d)))))
                        arrival)))).
  { apply collect_Forall; [|constructor].
    intros rd Hin. apply in_map_iff in Hin as (idx & <- & _).
    unfold route.dumpRoutes. apply dumpRoutes_loop_well_dumped; [|constructor].
    apply indices_from_below. }
  now rewrite H in G.
Qed.

(** X10.  Every entry of a route dump, whatever the order of arrival and
    whether or not an error is returned with it, has an unknown origin and
    no metadata, is keyed by [StaticRouteKey] of its own destination and
    interface, names one of the listed interfaces, has a defined scope and
    a metric within 32 bits. *)
Theorem Dump_entries_well_formed
    (d : route.RouteDescriptor) (arrival : list nat)
    (correlate dump : list route.RouteKVWithMetadata) (e : option error) :
  route.Dump d arrival correlate = Some (dump, e) ->
  forall kv, In kv dump ->
    route.Origin kv = UnknownOrigin
    /\ route.KVMetadata kv = None
    /\ route.KVKey kv = l3_StaticRouteKey (l3.DstNetwork (route.Value kv))
                                          (l3.OutgoingInterface (route.Value kv))
    /\ In (l3.OutgoingInterface (route.Value kv)) (ListAllInterfaces (route.ifPlugin d))
    /\ l3.Scope (route.Value kv) <> l3.StaticRoute_UNDEFINED
    /\ (0 <= l3.Metric (route.Value kv) < 2 ^ 32)%Z.
Proof.
  intros Hd kv Hin.
  pose proof (Dump_entries_well_formed_aux d arrival correlate dump e Hd) as Hw.
  rewrite Forall_forall in Hw. exact (Hw kv Hin).
Qed.

Lemma dumpRoutes_loop_err (d : route.RouteDescriptor) (interfaces : list string)
    (idxs : list nat) (e : error) :
  forall dump,
    route.err dump = None ->
    route.err (route.dumpRoutes_loop d interfaces idxs dump) = Some e ->
    exists i, In i idxs /\ fails_at d interfaces i e.
Proof.
  induction idxs as [|i idxs IH]; intros dump Hd H; simpl in H; [congruence|].
  destruct (LookupByName _ _) as [[m|] [|]] eqn:El; simpl in H;
    try (injection H as <-; exists i; split; [now left|]; left; split;
         [intros m'; rewrite El; discriminate|reflexivity]).
  destruct (SwitchToNamespace _ _) eqn:Es.
  - destruct (IH _ Hd H) as (j & Hj & Hf). exists j. split; [now right|assumption].
  - destruct (GetStaticRoutes _ _ _) as [[v4 v6] [e'|]] eqn:Eg; simpl in H.
    + injection H as <-. exists i. split; [now left|].
      right. exists m, v4, v6. rewrite El. auto.
    + destruct (IH {| route.routes := route.routes dump
                        ++ route.convertRoutes (nth i interfaces "") (length v4) 0 (v4 ++ v6);
                      route.err := route.err dump |} Hd H) as (j & Hj & Hf); exists j; (split; [now right|assumption]).
Qed.

Lemma dumpRoutes_loop_skip (d : route.RouteDescriptor) (interfaces : list string)
    (pre : list nat) :
  forall post i m e dump,
    LookupByName (route.ifPlugin d) (nth i interfaces "") = (Some m, true) ->
    SwitchToNamespace (route.nsPlugin d) (Namespace m) = Some e ->
    route.dumpRoutes_loop d interfaces (pre ++ i :: post) dump
    = route.dumpRoutes_loop d interfaces (pre ++ post) dump.
Proof.
  induction pre as [|j pre IH]; intros post i m e dump Hl Hs; simpl.
  - now rewrite Hl, Hs.
  - destruct (LookupByName _ (nth j interfaces "")) as [[mj|] [|]]; try reflexivity.
    destruct (SwitchToNamespace _ (Namespace mj)); [now apply (IH _ _ m e)|].
    destruct (GetStaticRoutes _ _ _) as [[v4 v6] [e'|]]; [reflexivity|].
    now apply (IH _ _ m e).
Qed.

(** X11.  A dump worker reports an error only for an interface of its
    slice whose metadata is missing from the index or whose routes Netlink
    fails to list; a failing namespace switch never gives an error: the
    interface is passed over, and the result is the one the worker would
    have had without that interface. *)
Theorem dump_worker_errors
    (d : route.RouteDescriptor) (interfaces : list string) (idx cnt : nat) :
  (forall e, route.err (route.dumpRoutes d interfaces idx cnt) = Some e ->
     exists i, In i (route.dumpRoutes_indices idx cnt (length interfaces))
               /\ fails_at d interfaces i e)
  /\ (forall pre post i m e dump,
        LookupByName (route.ifPlugin d) (nth i interfaces "") = (Some m, true) ->
        SwitchToNamespace (route.nsPlugin d) (Namespace m) = Some e ->
        route.dumpRoutes_loop d interfaces (pre ++ i :: post) dump
        = route.dumpRoutes_loop d interfaces (pre ++ post) dump).
Proof.
  split.
  - intros e H. unfold route.dumpRoutes in H.
    now apply dumpRoutes_loop_err in H.
  - intros pre post. apply dumpRoutes_loop_skip.
Qed.

Lemma convertRoute_position (ifName : string) (lenV4 idx : nat) (r : netlink.Route) :
  route.convertRoute ifName lenV4 idx r = convertAs (idx <? lenV4)%nat ifName r.
Proof.
  unfold convertAs, route.convertRoute.
  destruct (Nat.ltb_spec idx lenV4); reflexivity.
Qed.

Lemma convertRoutes_positions (ifName : string) (lenV4 : nat) (rs : list netlink.Route) :
  forall idx,
    (idx + length rs <= lenV4 ->
     route.convertRoutes ifName lenV4 idx rs = flat_map (convertAs true ifName) rs)
    /\ (lenV4 <= idx ->
     route.convertRoutes ifName lenV4 idx rs = flat_map (convertAs false ifName) rs).
Proof.
  induction rs as [|r rs IH]; intros idx; simpl; [split; reflexivity|].
  rewrite convertRoute_position. split; intros H.
  - destruct (Nat.ltb_spec idx lenV4); [|lia].
    f_equal. apply IH. lia.
  - destruct (Nat.ltb_spec idx lenV4); [lia|].
    f_equal. apply IH. lia.
Qed.

Lemma convertRoutes_app (ifName : string) (lenV4 : nat) (a b : list netlink.Route) :
  forall idx,
    route.convertRoutes ifName lenV4 idx (a ++ b)
    = route.convertRoutes ifName lenV4 idx a
      ++ route.convertRoutes ifName lenV4 (idx + length a) b.
Proof.
  induction a as [|r a IH]; intros idx; simpl.
  - now rewrite Nat.add_0_r.
  - rewrite IH, <- app_assoc.
    replace (S idx + length a) with (idx + S (length a)) by lia. reflexivity.
Qed.

(** X12.  The entries [dumpRoutes] makes of the routes of one interface
    are those of its IPv4 routes followed by those of its IPv6 routes; a
    route without destination is dumped with destination [0.0.0.0/0] when
    it is in the IPv4 list and [::/0] when it is in the IPv6 list, and an
    IPv6 route to a link-local unicast network is not dumped. *)
Theorem convertRoutes_by_family
    (ifName : string) (v4Routes v6Routes : list netlink.Route) :
  route.convertRoutes ifName (length v4Routes) 0 (v4Routes ++ v6Routes)
  = flat_map (convertAs true ifName) v4Routes
    ++ flat_map (convertAs false ifName) v6Routes
  /\ (forall r kv, netlink.Dst r = None ->
        (In kv (convertAs true ifName r) -> l3.DstNetwork (route.Value kv) = "0.0.0.0/0")
        /\ (In kv (convertAs false ifName r) -> l3.DstNetwork (route.Value kv) = "::/0"))
  /\ (forall r dst v4, netlink.Dst r = Some dst ->
        net.To4 (net.IP_ dst) = None ->
        net.IsLinkLocalUnicast (net.IP_ dst) = true ->
        convertAs v4 ifName r = []).
Proof.
  split; [|split].
  - rewrite convertRoutes_app. simpl. f_equal.
    + apply convertRoutes_positions. lia.
    + apply convertRoutes_positions. lia.
  - intros r kv Hd. unfold convertAs, route.convertRoute. rewrite Hd. simpl.
    destruct (route.rtScopeFromNetlinkToNB _); split; intros H;
      try contradiction; destruct H as [<-|[]]; reflexivity.
  - intros r dst v4 Hd H4 Hl. unfold convertAs, route.convertRoute.
    now rewrite Hd, H4, Hl.
Qed.

End DumpWorkers.

(* ===================================================================== *)
(** ** Further properties of the punt-to-host descriptor                  *)
(* ===================================================================== *)

Section PuntUpdates.

(** X13.  [validatePuntConfig] accepts a punt exactly when its L3 protocol,
    its L4 protocol and its port are defined; it checks them in this order
    and every error it returns is one of the descriptor's terminal
    errors. *)
Theorem validatePuntConfig_accepts_iff
    (d : punt_to_host.PuntToHostDescriptor) (p : punt.ToHost) :
  (punt_to_host.validatePuntConfig d p = None
   <-> punt.L3Protocol_ p <> punt.L3Protocol_UNDEFINED
       /\ punt.L4Protocol_ p <> punt.L4Protocol_UNDEFINED
       /\ punt.Port p <> 0%Z)
  /\ (punt.L3Protocol_ p = punt.L3Protocol_UNDEFINED ->
      punt_to_host.validatePuntConfig d p = Some ErrPuntWithoutL3Protocol)
  /\ (punt.L3Protocol_ p <> punt.L3Protocol_UNDEFINED ->
      punt.L4Protocol_ p = punt.L4Protocol_UNDEFINED ->
      punt_to_host.validatePuntConfig d p = Some ErrPuntWithoutL4Protocol)
  /\ (punt.L3Protocol_ p <> punt.L3Protocol_UNDEFINED ->
      punt.L4Protocol_ p <> punt.L4Protocol_UNDEFINED ->
      punt.Port p = 0%Z ->
      punt_to_host.validatePuntConfig d p = Some ErrPuntWithoutPort)
  /\ (forall e, punt_to_host.validatePuntConfig d p = Some e ->
                punt_to_host.IsRetriableFailure d (Some e) = false).
Proof.
  unfold punt_to_host.validatePuntConfig.
  destruct (punt.L3Protocol_ p), (punt.L4Protocol_ p), (Z.eqb_spec (punt.Port p) 0);
    repeat split; intros; try discriminate; try congruence; try tauto;
    try (match goal with H : Some _ = Some _ |- _ => injection H as <- end; reflexivity).
Qed.

Lemma punt_Add_refused (d : punt_to_host.PuntToHostDescriptor) (key : string)
    (p : punt.ToHost) (w : World) (e : error) :
  punt_to_host.validatePuntConfig d p = Some e ->
  runs_to (punt_to_host.Add d key p) w (None, Some e) [].
Proof.
  unfold punt_to_host.Add. intros ->.
  unfold runs_to, bind; simpl. now rewrite app_nil_r.
Qed.

Lemma punt_Add_to_host (d : punt_to_host.PuntToHostDescriptor) (key : string)
    (p : punt.ToHost) (w : World) :
  punt_to_host.validatePuntConfig d p = None -> punt.SocketPath p = "" ->
  runs_to (punt_to_host.Add d key p) w
          (None, AddPunt (punt_to_host.puntHandler d) p) [Call_AddPunt p].
Proof.
  unfold punt_to_host.Add. intros -> ->. simpl.
  unfold call_AddPunt, runs_to, bind, record_call, ret; simpl.
  destruct (AddPunt _ p); simpl; auto.
Qed.

Lemma punt_Add_to_socket (d : punt_to_host.PuntToHostDescriptor) (key : string)
    (p : punt.ToHost) (w : World) :
  punt_to_host.validatePuntConfig d p = None -> punt.SocketPath p <> "" ->
  runs_to (punt_to_host.Add d key p) w
          (None, RegisterPuntSocket (punt_to_host.puntHandler d) p)
          [Call_RegisterPuntSocket p].
Proof.
  unfold punt_to_host.Add. intros -> Hs. apply String.eqb_neq in Hs. rewrite Hs.
  unfold call_RegisterPuntSocket, runs_to, bind, record_call, ret; simpl.
  destruct (RegisterPuntSocket _ p); simpl; auto.
Qed.

Lemma punt_Delete_to_host (d : punt_to_host.PuntToHostDescriptor) (key : string)
    (p : punt.ToHost) (metadata : Metadata) (w : World) :
  punt.SocketPath p = "" ->
  runs_to (punt_to_host.Delete d key p metadata) w None [].
Proof.
  unfold punt_to_host.Delete. intros ->. simpl.
  unfold runs_to, bind; simpl. now rewrite app_nil_r.
Qed.

Lemma punt_Delete_to_socket (d : punt_to_host.PuntToHostDescriptor) (key : string)
    (p : punt.ToHost) (metadata : Metadata) (w : World) :
  punt.SocketPath p <> "" ->
  runs_to (punt_to_host.Delete d key p metadata) w
          (DeregisterPuntSocket (punt_to_host.puntHandler d) p)
          [Call_DeregisterPuntSocket p].
Proof.
  unfold punt_to_host.Delete. intros Hs. apply String.eqb_neq in Hs. rewrite Hs.
  unfold call_DeregisterPuntSocket, runs_to, bind, record_call, ret; simpl.
  destruct (DeregisterPuntSocket _ p); simpl; auto.
Qed.

(** X14.  [Add] of a punt the validation refuses returns the validation
    error and calls nothing.  [Add] of a valid punt makes exactly one call,
    [AddPunt] when the punt has no socket path and [RegisterPuntSocket]
    when it has one, and returns the error of that call as it is. *)
Theorem punt_Add_calls_once
    (d : punt_to_host.PuntToHostDescriptor) (key : string) (p : punt.ToHost) (w : World) :
  (forall e, punt_to_host.validatePuntConfig d p = Some e ->
     runs_to (punt_to_host.Add d key p) w (None, Some e) [])
  /\ (punt_to_host.validatePuntConfig d p = None -> punt.SocketPath p = "" ->
     runs_to (punt_to_host.Add d key p) w
             (None, AddPunt (punt_to_host.puntHandler d) p) [Call_AddPunt p])
  /\ (punt_to_host.validatePuntConfig d p = None -> punt.SocketPath p <> "" ->
     runs_to (punt_to_host.Add d key p) w
             (None, RegisterPuntSocket (punt_to_host.puntHandler d) p)
             [Call_RegisterPuntSocket p]).
Proof.
  split; [|split].
  - intros e. apply punt_Add_refused.
  - apply punt_Add_to_host.
  - apply punt_Add_to_socket.
Qed.

(** X15.  [Delete] undoes [Add] for socket punts only: after [Add] and
    then [Delete] of a valid punt with a socket path the handler has been
    asked to register and then to deregister it; for a valid punt without
    socket path the only call made is the [AddPunt] of [Add], and [Delete]
    returns no error. *)
Theorem punt_Add_then_Delete
    (d : punt_to_host.PuntToHostDescriptor) (key : string) (p : punt.ToHost)
    (metadata : Metadata) (w : World) :
  punt_to_host.validatePuntConfig d p = None ->
  (punt.SocketPath p = "" ->
     calls (snd (punt_to_host.Delete d key p metadata
                   (snd (punt_to_host.Add d key p w))))
     = calls w ++ [Call_AddPunt p]
     /\ fst (punt_to_host.Delete d key p metadata (snd (punt_to_host.Add d key p w)))
        = None)
  /\ (punt.SocketPath p <> "" ->
     calls (snd (punt_to_host.Delete d key p metadata
                   (snd (punt_to_host.Add d key p w))))
     = calls w ++ [Call_RegisterPuntSocket p; Call_DeregisterPuntSocket p]
     /\ fst (punt_to_host.Delete d key p metadata (snd (punt_to_host.Add d key p w)))
        = DeregisterPuntSocket (punt_to_host.puntHandler d) p).
Proof.
  intros Hv. split; intros Hs.
  - destruct (punt_Add_to_host d key p w Hv Hs) as (_ & Hc & _).
    destruct (punt_Delete_to_host d key p metadata (snd (punt_to_host.Add d key p w)) Hs)
      as (Hr & Hc' & _).
    rewrite Hc', Hc, app_nil_r. auto.
  - destruct (punt_Add_to_socket d key p w Hv Hs) as (_ & Hc & _).
    destruct (punt_Delete_to_socket d key p metadata (snd (punt_to_host.Add d key p w)) Hs)
      as (Hr & Hc' & _).
    rewrite Hc', Hc, <- app_assoc. auto.
Qed.

End PuntUpdates.

(* ===================================================================== *)
(** ** Properties of the mock of the resync DSL                           *)
(* ===================================================================== *)

Section MockDSL.
Context {lib : GoLib} {keys : ModelKeys}.

Lemma store_lookup (d : mockdsl.MockDataResyncDSL) (key : string) (val : Message) :
  mockdsl.Values (mockdsl.store d key val) key = Some val
  /\ (forall k, k <> key -> mockdsl.Values (mockdsl.store d key val) k = mockdsl.Values d k).
Proof.
  unfold mockdsl.store; simpl. split.
  - now rewrite String.eqb_refl.
  - intros k Hk. apply String.eqb_neq in Hk. now rewrite Hk.
Qed.

(** X17.  A dumped route that is put into a resync request is stored under
    the key it was dumped with: for every entry of a route dump,
    [LinuxRoute] of its value makes the entry's key map to that value. *)
Theorem dumped_route_keeps_its_key
    (d : route.RouteDescriptor) (arrival : list nat)
    (correlate dump : list route.RouteKVWithMetadata) (e : option error)
    (dsl : mockdsl.MockDataResyncDSL) (kv : route.RouteKVWithMetadata) :
  route.Dump d arrival correlate = Some (dump, e) ->
  In kv dump ->
  mockdsl.Values (mockdsl.LinuxRoute dsl (route.Value kv)) (route.KVKey kv)
  = Some (Msg_LinuxRoute (route.Value kv)).
Proof.
  intros Hd Hin.
  pose proof (Dump_entries_well_formed_aux d arrival correlate dump e Hd) as Hw.
  rewrite Forall_forall in Hw. destruct (Hw kv Hin) as (_ & _ & Hk & _).
  rewrite Hk. unfold mockdsl.LinuxRoute. apply store_lookup.
Qed.

End MockDSL.

(* ===================================================================== *)
(** ** Further runs on sample values                                      *)
(* ===================================================================== *)

Section FurtherExamples.
Import Samples.
#[local] Existing Instance RefLib.lib.
#[local] Existing Instance RefLib.keys.

(** X4, witness: a destination that is no network is refused after the
    lookup alone. *)
Lemma terminal_error_witness :
  calls (snd (route.Add d_eth0 "k" (mkRoute "eth0" l3.StaticRoute_GLOBAL "not-a-network" "")
                world0))
  = calls world0
  \/ calls (snd (route.Add d_eth0 "k"
                   (mkRoute "eth0" l3.StaticRoute_GLOBAL "not-a-network" "") world0))
     = calls world0 ++ [Call_LookupByName "eth0"].
Proof.
  refine (proj1 (terminal_error_precedes_switch d_eth0 "k"
                   (mkRoute "eth0" l3.StaticRoute_GLOBAL "not-a-network" "")
                   (mkRoute "eth0" l3.StaticRoute_GLOBAL "not-a-network" "")
                   None world0 ErrRouteWithInvalidDst _) _); reflexivity.
Defined.

(** X5, witness: a link-local route with a gateway can be neither added
    nor deleted. *)
Lemma validation_is_shared_witness :
  route.Delete d_eth0 "k" (mkRoute "eth0" l3.StaticRoute_LINK "169.254.0.0/16" "10.0.0.1")
    None world0
  = (Some ErrRouteLinkWithGw,
     snd (route.Add d_eth0 "k" (mkRoute "eth0" l3.StaticRoute_LINK "169.254.0.0/16" "10.0.0.1")
            world0)).
Proof.
  refine (proj1 (validation_is_shared d_eth0 "k"
                   (mkRoute "eth0" l3.StaticRoute_LINK "169.254.0.0/16" "10.0.0.1")
                   (mkRoute "eth0" l3.StaticRoute_LINK "169.254.0.0/16" "")
                   None world0 ErrRouteLinkWithGw _ _)); reflexivity.
Defined.

(** X7, witness: the link-local route to [10.0.0.0/24] via [eth0] makes the
    gateway [10.0.0.77] of another route via [eth0] reachable. *)
Lemma link_local_gateway_witness :
  route.DerivedValues d_eth0 "k1" (mkRoute "eth0" l3.StaticRoute_LINK "10.0.0.0/24" "")
  = [ {| KVPKey := "linux/link-local-route/10.0.0.0/24/eth0"; KVPValue := Msg_Empty |} ]
  /\ exists dep anyOf,
       In dep (route.Dependencies d_eth0 "k2"
                 (mkRoute "eth0" l3.StaticRoute_GLOBAL "192.168.0.0/16" "10.0.0.77"))
       /\ Label dep = route.routeGwReachabilityDep
       /\ AnyOf dep = Some anyOf
       /\ forall kv,
            In kv (route.DerivedValues d_eth0 "k1"
                     (mkRoute "eth0" l3.StaticRoute_LINK "10.0.0.0/24" "")) ->
            anyOf (KVPKey kv) = true.
Proof.
  pose proof (link_local_route_satisfies_gateway_dependency d_eth0 "k1" "k2"
                (mkRoute "eth0" l3.StaticRoute_LINK "10.0.0.0/24" "")
                (mkRoute "eth0" l3.StaticRoute_GLOBAL "192.168.0.0/16" "10.0.0.77")
                (net.IPv4 10 0 0 77)
                {| net.IP_ := [10; 0; 0; 0]%Z; net.Mask := [255; 255; 255; 0]%Z |}
                eq_refl eq_refl eq_refl eq_refl eq_refl eq_refl) as H.
  split; [exact (proj1 H)|exact (proj1 (proj2 H))].
Defined.

(** X8, witness: six interfaces and a bound of four give two workers. *)
Lemma goRoutinesCnt_witness :
  route.goRoutinesCnt d_six six = 2%Z
  /\ (1 <= route.goRoutinesCnt d_six six <= route.dumpGoRoutinesCnt d_six)%Z.
Proof.
  split; [reflexivity|].
  refine (proj1 (proj2 (goRoutinesCnt_bounds d_six six _ _))); simpl; lia.
Defined.

(** X9, witness: with a bound of zero the six interfaces are not looked
    at. *)
Lemma Dump_without_workers_witness :
  route.Dump d_no_workers [] [] = Some ([], None).
Proof.
  refine (proj1 (Dump_without_workers d_no_workers [] [] _) _ _).
  - simpl. lia.
  - reflexivity.
  - unfold route.arrival_order. apply Permutation_refl.
Defined.

(** X10, witness: the entry dumped for [eth1] in the run where worker 1
    arrives first. *)
Lemma Dump_entries_witness :
  route.KVKey (dumpedDefaultRoute "eth1")
  = l3_StaticRouteKey (l3.DstNetwork (route.Value (dumpedDefaultRoute "eth1")))
                      (l3.OutgoingInterface (route.Value (dumpedDefaultRoute "eth1")))
  /\ In (l3.OutgoingInterface (route.Value (dumpedDefaultRoute "eth1"))) six.
Proof.
  pose proof (Dump_entries_well_formed d_six [1; 0] []
                [dumpedDefaultRoute "eth1"; dumpedDefaultRoute "eth3";
                 dumpedDefaultRoute "eth5"]
                (Some (Errorf "failed to obtain metadata for interface eth2"))
                eq_refl (dumpedDefaultRoute "eth1") (or_introl eq_refl)) as H.
  split; [exact (proj1 (proj2 (proj2 H)))|exact (proj1 (proj2 (proj2 (proj2 H))))].
Defined.

(** X15, witness: a punt to the host stays after [Add] and [Delete]; a punt
    to a socket is registered and deregistered. *)
Lemma punt_Add_then_Delete_witness :
  calls (snd (punt_to_host.Delete d_punt "k" (mkPunt "") None
                (snd (punt_to_host.Add d_punt "k" (mkPunt "") world0))))
  = [Call_AddPunt (mkPunt "")]
  /\ calls (snd (punt_to_host.Delete d_punt "k" (mkPunt "/run/punt.sock") None
                   (snd (punt_to_host.Add d_punt "k" (mkPunt "/run/punt.sock") world0))))
     = [Call_RegisterPuntSocket (mkPunt "/run/punt.sock");
        Call_DeregisterPuntSocket (mkPunt "/run/punt.sock")].
Proof.
  split.
  - refine (proj1 (proj1 (punt_Add_then_Delete d_punt "k" (mkPunt "") None world0 _) _));
      reflexivity.
  - refine (proj1 (proj2 (punt_Add_then_Delete d_punt "k" (mkPunt "/run/punt.sock")
                            None world0 _) _)); [reflexivity|discriminate].
Defined.

(** X17, witness: the entry dumped for [eth1], put into an empty resync
    request. *)
Lemma dumped_route_key_witness :
  mockdsl.Values (mockdsl.LinuxRoute emptyDSL (route.Value (dumpedDefaultRoute "eth1")))
                 (route.KVKey (dumpedDefaultRoute "eth1"))
  = Some (Msg_LinuxRoute (route.Value (dumpedDefaultRoute "eth1"))).
Proof.
  refine (dumped_route_keeps_its_key d_six [1; 0] []
            [dumpedDefaultRoute "eth1"; dumpedDefaultRoute "eth3"; dumpedDefaultRoute "eth5"]
            (Some (Errorf "failed to obtain metadata for interface eth2"))
            emptyDSL (dumpedDefaultRoute "eth1") _ _).
  - reflexivity.
  - now left.
Defined.

End FurtherExamples.
